(** * Double-ratchet messenger client (Project_2/src/messenger.py)

    A shallow embedding of [MessengerClient]: the certificate store, the
    per-peer session table, the Diffie-Hellman and hash ratchets and the
    [send_message] / [receive_message] codec, followed by the properties of
    the specification that concern them.

    The primitive library [lib] imported by the module is an interface here
    (class [Lib]); randomness is an explicit entropy state threaded through
    every call that draws a salt or a key pair.  Python exceptions are
    results that leave the mutations made so far in place. *)

From Stdlib Require Import ZArith Ascii String List Lia DecimalString.
From stdpp Require Import base option gmap strings.

Local Open Scope Z_scope.
Local Open Scope string_scope.

(** ** Values exchanged with the primitive library *)

(** The dict returned by [generate_eg()]: keys "private" and "public". *)
Record KeyPair (B : Type) := mkKeyPair { private : B; public : B }.
Arguments mkKeyPair {B} _ _.
Arguments private {B} _.
Arguments public {B} _.

(** What [encrypt_with_gcm] is given as plaintext: [send_message] passes a
    Python [str] for the message and a key for the escrow ciphertext. *)
Inductive pydata (B : Type) : Type :=
  | PyStr (s : string)
  | PyBytes (b : B).
Arguments PyStr {B} _.
Arguments PyBytes {B} _.

(** The functions imported from [lib] (messenger.py, lines 9 to 20), with the
    carrier of byte strings and the source of randomness.  [bytes] is only
    ever compared for equality by the client.  An omitted associated-data
    argument of the GCM functions is [None]; a failed authentication in
    [decrypt_with_gcm] (an exception in Python) is the result [None]. *)
Class Lib := {
  bytes : Type;
  bytes_eq_dec :: EqDecision bytes;
  entropy : Type;
  gen_random_salt : entropy -> bytes * entropy;
  generate_eg : entropy -> KeyPair bytes * entropy;
  compute_dh : bytes -> bytes -> bytes;
  verify_with_ecdsa : bytes -> string -> bytes -> bool;
  hmac_to_aes_key : bytes -> string -> bytes;
  hmac_to_hmac_key : bytes -> string -> bytes;
  hkdf : bytes -> bytes -> string -> bytes * bytes;
  encrypt_with_gcm : bytes -> pydata bytes -> bytes -> option string -> bytes * bytes;
  decrypt_with_gcm : bytes -> bytes * bytes -> bytes -> option string -> option (pydata bytes);
  gov_encryption_data_str : string;
}.

(** ** Exceptions and the state-and-exception monad *)

Inductive exn : Type :=
  | ValueError (msg : string)
  | TypeError
  | KeyError.

Inductive result (A : Type) : Type :=
  | Ok (a : A)
  | Raise (e : exn).
Arguments Ok {A} _.
Arguments Raise {A} _.

(** The call ended with an exception. *)
Definition raises {A} (outcome : result A) : Prop :=
  match outcome with
  | Raise _ => True
  | Ok _ => False
  end.

Definition replay_error : exn := ValueError "Message replay detected!".
Definition tamper_error : exn := ValueError "Message tampering detected!".
Definition certificate_error : exn := ValueError "Tampering detected!".
Definition no_certificate_error (name : string) : exn :=
  ValueError (String.append "No certificate found for user " name).

Section Client.
Context `{L : Lib}.

(** ** Data model *)

Record Certificate := mkCertificate {
  username : string;
  public_key : bytes;
}.

(** The header dict built by [send_message]; its seven keys.  A header
    handed to [receive_message] is taken to have the same shape, with byte
    strings and integers where [send_message] puts them. *)
Record Header := mkHeader {
  h_dh_public_key : bytes;
  h_prev_chain_length : Z;
  h_message_n : Z;
  h_receiver_iv : bytes;
  h_v_gov : bytes;
  h_c_gov : bytes * bytes;
  h_iv_gov : bytes;
}.

(** An entry of [self.conns].  Both initialisers create the dict with all
    ten keys and no key is ever added or removed afterwards, so the defaults
    of [conn.get(key, default)] are never used.  Fields set to Python's
    [None] by an initialiser are options. *)
Record Session := mkSession {
  my_dh_private_key : bytes;
  my_dh_public_key : bytes;
  their_dh_public_key : option bytes;
  root_key : bytes;
  sending_chain_key : option bytes;
  receiving_chain_key : option bytes;
  message_n : Z;
  their_message_n : Z;
  prev_chain_length : Z;
  need_ratchet : bool;
}.

Record MessengerClient := mkClient {
  ca_public_key : bytes;
  gov_public_key : bytes;
  conns : gmap string Session;
  certs : gmap string Certificate;
  my_certificate : option Certificate;
  my_keys : option (KeyPair bytes);
}.

(** Python's [str()] on the two dicts the client serialises: the message
    signed by the certificate authority and the associated data of a
    message. *)
Class Repr := {
  str_certificate : Certificate -> string;
  str_header : Header -> string;
}.
Context `{R : Repr}.

(** The client object together with the process's randomness. *)
Record World := mkWorld {
  self : MessengerClient;
  rnd : entropy;
}.

Definition M (A : Type) : Type := World -> result A * World.

Definition ret {A} (a : A) : M A := fun w => (Ok a, w).
Definition raise {A} (e : exn) : M A := fun w => (Raise e, w).
Definition bind {A B} (m : M A) (k : A -> M B) : M B :=
  fun w => match m w with
           | (Ok a, w') => k a w'
           | (Raise e, w') => (Raise e, w')
           end.

Notation "'let*' x ':=' m 'in' k" := (bind m (fun x => k))
  (at level 10, x name, m at level 100, k at level 200).
Notation "m ';;;' k" := (bind m (fun _ => k))
  (at level 100, k at level 200, right associativity).

Definition get_self : M MessengerClient := fun w => (Ok (self w), w).
Definition modify_self (f : MessengerClient -> MessengerClient) : M unit :=
  fun w => (Ok tt, mkWorld (f (self w)) (rnd w)).
Definition draw {A} (gen : entropy -> A * entropy) : M A :=
  fun w => let drawn := gen (rnd w) in
           (Ok (fst drawn), mkWorld (self w) (snd drawn)).

(** A [lib] function applied to [None] where it expects a key: the call
    raises before it produces anything. *)
Definition lib_arg (o : option bytes) : M bytes :=
  match o with
  | Some b => ret b
  | None => raise TypeError
  end.

(** [self.my_keys["private"]] and [self.my_keys["public"]]: subscripting
    [None] raises. *)
Definition get_my_keys : M (KeyPair bytes) :=
  let* c := get_self in
  match my_keys c with
  | Some k => ret k
  | None => raise TypeError
  end.

Definition with_conns (f : gmap string Session -> gmap string Session)
    (c : MessengerClient) : MessengerClient :=
  mkClient (ca_public_key c) (gov_public_key c) (f (conns c)) (certs c)
           (my_certificate c) (my_keys c).

Definition with_certs (f : gmap string Certificate -> gmap string Certificate)
    (c : MessengerClient) : MessengerClient :=
  mkClient (ca_public_key c) (gov_public_key c) (conns c) (f (certs c))
           (my_certificate c) (my_keys c).

(** [self.conns[name]]. *)
Definition get_conn (name : string) : M Session :=
  let* c := get_self in
  match conns c !! name with
  | Some s => ret s
  | None => raise KeyError
  end.

(** [self.conns[name] = s]. *)
Definition put_conn (name : string) (s : Session) : M unit :=
  modify_self (with_conns (insert name s)).

(** [conn[key] = value] through the alias [conn = self.conns[name]]: the
    entry of the table itself is mutated. *)
Definition set_conn (name : string) (f : Session -> Session) : M unit :=
  modify_self (with_conns (alter f name)).

Definition set_my_dh_private_key (v : bytes) (s : Session) : Session :=
  mkSession v (my_dh_public_key s) (their_dh_public_key s) (root_key s)
    (sending_chain_key s) (receiving_chain_key s) (message_n s)
    (their_message_n s) (prev_chain_length s) (need_ratchet s).
Definition set_my_dh_public_key (v : bytes) (s : Session) : Session :=
  mkSession (my_dh_private_key s) v (their_dh_public_key s) (root_key s)
    (sending_chain_key s) (receiving_chain_key s) (message_n s)
    (their_message_n s) (prev_chain_length s) (need_ratchet s).
Definition set_their_dh_public_key (v : option bytes) (s : Session) : Session :=
  mkSession (my_dh_private_key s) (my_dh_public_key s) v (root_key s)
    (sending_chain_key s) (receiving_chain_key s) (message_n s)
    (their_message_n s) (prev_chain_length s) (need_ratchet s).
Definition set_root_key (v : bytes) (s : Session) : Session :=
  mkSession (my_dh_private_key s) (my_dh_public_key s) (their_dh_public_key s) v
    (sending_chain_key s) (receiving_chain_key s) (message_n s)
    (their_message_n s) (prev_chain_length s) (need_ratchet s).
Definition set_sending_chain_key (v : option bytes) (s : Session) : Session :=
  mkSession (my_dh_private_key s) (my_dh_public_key s) (their_dh_public_key s)
    (root_key s) v (receiving_chain_key s) (message_n s)
    (their_message_n s) (prev_chain_length s) (need_ratchet s).
Definition set_receiving_chain_key (v : option bytes) (s : Session) : Session :=
  mkSession (my_dh_private_key s) (my_dh_public_key s) (their_dh_public_key s)
    (root_key s) (sending_chain_key s) v (message_n s)
    (their_message_n s) (prev_chain_length s) (need_ratchet s).
Definition set_message_n (v : Z) (s : Session) : Session :=
  mkSession (my_dh_private_key s) (my_dh_public_key s) (their_dh_public_key s)
    (root_key s) (sending_chain_key s) (receiving_chain_key s) v
    (their_message_n s) (prev_chain_length s) (need_ratchet s).
Definition set_their_message_n (v : Z) (s : Session) : Session :=
  mkSession (my_dh_private_key s) (my_dh_public_key s) (their_dh_public_key s)
    (root_key s) (sending_chain_key s) (receiving_chain_key s) (message_n s)
    v (prev_chain_length s) (need_ratchet s).
Definition set_prev_chain_length (v : Z) (s : Session) : Session :=
  mkSession (my_dh_private_key s) (my_dh_public_key s) (their_dh_public_key s)
    (root_key s) (sending_chain_key s) (receiving_chain_key s) (message_n s)
    (their_message_n s) v (need_ratchet s).
Definition set_need_ratchet (v : bool) (s : Session) : Session :=
  mkSession (my_dh_private_key s) (my_dh_public_key s) (their_dh_public_key s)
    (root_key s) (sending_chain_key s) (receiving_chain_key s) (message_n s)
    (their_message_n s) (prev_chain_length s) v.

(** ** The client's methods *)

(** [__init__]. *)
Definition new_client (cert_authority_public_key gov_pk : bytes) : MessengerClient :=
  mkClient cert_authority_public_key gov_pk ∅ ∅ None None.

Definition generate_certificate (user : string) : M Certificate :=
  let* keys := draw generate_eg in
  let certificate := mkCertificate user (public keys) in
  modify_self (fun c =>
    mkClient (ca_public_key c) (gov_public_key c) (conns c) (certs c)
             (Some certificate) (Some keys)) ;;;
  ret certificate.

Definition receive_certificate (certificate : Certificate) (signature : bytes) : M unit :=
  let* c := get_self in
  let valid := verify_with_ecdsa (ca_public_key c) (str_certificate certificate) signature in
  if negb valid then raise certificate_error
  else modify_self (with_certs (insert (username certificate) certificate)).

(** [_ratchet_sending_chain] and [_ratchet_receiving_chain]: one step of a
    hash ratchet, returning [(message_key, next_chain_key)]. *)
Definition _ratchet_sending_chain (current_key : bytes) : bytes * bytes :=
  let message_key := hmac_to_hmac_key current_key "message_key" in
  let next_chain_key := hmac_to_hmac_key current_key "next_chain_key" in
  (message_key, next_chain_key).

Definition _ratchet_receiving_chain (current_key : bytes) : bytes * bytes :=
  let message_key := hmac_to_hmac_key current_key "message_key" in
  let next_chain_key := hmac_to_hmac_key current_key "next_chain_key" in
  (message_key, next_chain_key).

(** [self.certs[name]] inside the two initialisers. *)
Definition get_cert (name : string) : M Certificate :=
  let* c := get_self in
  match certs c !! name with
  | Some cert => ret cert
  | None => raise KeyError
  end.

Definition _initialize_sending_session (recipient_name : string) : M unit :=
  let* recipient_cert := get_cert recipient_name in
  let* dh_keys := draw generate_eg in
  let* mk := get_my_keys in
  let shared_secret := compute_dh (private mk) (public_key recipient_cert) in
  put_conn recipient_name
    (mkSession (private dh_keys) (public dh_keys) None shared_secret
               None None 0 (-1) 0 false) ;;;
  let* salt := draw gen_random_salt in
  let chain_key := fst (hkdf shared_secret salt "sending_chain_init") in
  set_conn recipient_name (set_sending_chain_key (Some chain_key)).

Definition _initialize_receiving_session (sender_name : string) (header : Header)
    : M unit :=
  let* sender_cert := get_cert sender_name in
  let* mk := get_my_keys in
  let shared_secret := compute_dh (private mk) (public_key sender_cert) in
  put_conn sender_name
    (mkSession (private mk) (public mk) (Some (h_dh_public_key header))
               shared_secret None None 0 (-1) 0 false) ;;;
  let* salt := draw gen_random_salt in
  let chain_key := snd (hkdf shared_secret salt "receiving_chain_init") in
  set_conn sender_name (set_receiving_chain_key (Some chain_key)).

Definition _ratchet_dh_sending_keys (recipient_name : string) : M unit :=
  let* conn := get_conn recipient_name in
  set_conn recipient_name (set_prev_chain_length (message_n conn)) ;;;
  set_conn recipient_name (set_message_n 0) ;;;
  let* dh_keys := draw generate_eg in
  set_conn recipient_name (set_my_dh_private_key (private dh_keys)) ;;;
  set_conn recipient_name (set_my_dh_public_key (public dh_keys)) ;;;
  let* conn := get_conn recipient_name in
  let* their_pk := lib_arg (their_dh_public_key conn) in
  let dh_output := compute_dh (my_dh_private_key conn) their_pk in
  let* salt := draw gen_random_salt in
  let keys := hkdf dh_output salt "dh_ratchet_sending" in
  set_conn recipient_name (set_root_key (fst keys)) ;;;
  set_conn recipient_name (set_sending_chain_key (Some (snd keys))) ;;;
  set_conn recipient_name (set_need_ratchet false).

Definition _ratchet_dh_receiving_keys (sender_name : string) (header : Header)
    : M unit :=
  let* conn := get_conn sender_name in
  set_conn sender_name (set_their_dh_public_key (Some (h_dh_public_key header))) ;;;
  let* conn := get_conn sender_name in
  let* their_pk := lib_arg (their_dh_public_key conn) in
  let dh_output := compute_dh (my_dh_private_key conn) their_pk in
  let* salt := draw gen_random_salt in
  let keys := hkdf dh_output salt "dh_ratchet_receiving" in
  set_conn sender_name (set_root_key (fst keys)) ;;;
  set_conn sender_name (set_receiving_chain_key (Some (snd keys))).

Definition send_message (name : string) (plaintext : string)
    : M (Header * (bytes * bytes)) :=
  let* c := get_self in
  match certs c !! name with
  | None => raise (no_certificate_error name)
  | Some recipient_cert =>
    (match conns c !! name with
     | None => _initialize_sending_session name
     | Some _ => ret tt
     end) ;;;
    let* conn := get_conn name in
    (if need_ratchet conn then _ratchet_dh_sending_keys name else ret tt) ;;;
    let* receiver_iv := draw gen_random_salt in
    let* gov_iv := draw gen_random_salt in
    let* conn := get_conn name in
    let* current_key := lib_arg (sending_chain_key conn) in
    let ratcheted := _ratchet_sending_chain current_key in
    let sending_key := fst ratcheted in
    set_conn name (set_sending_chain_key (Some (snd ratcheted))) ;;;
    let aes_sending_key := hmac_to_aes_key sending_key "encrypt" in
    let* conn := get_conn name in
    let* mk := get_my_keys in
    let* c := get_self in
    let gov_key := compute_dh (private mk) (gov_public_key c) in
    let gov_key := hmac_to_aes_key gov_key gov_encryption_data_str in
    let gov_ciphertext := encrypt_with_gcm gov_key (PyBytes aes_sending_key) gov_iv None in
    let header :=
      mkHeader (my_dh_public_key conn) (prev_chain_length conn) (message_n conn)
               receiver_iv (public mk) gov_ciphertext gov_iv in
    let* conn := get_conn name in
    set_conn name (set_message_n (message_n conn + 1)) ;;;
    let ciphertext :=
      encrypt_with_gcm aes_sending_key (PyStr plaintext) receiver_iv
                       (Some (str_header header)) in
    ret (header, ciphertext)
  end.

Definition receive_message (name : string) (message : Header * (bytes * bytes))
    : M (pydata bytes) :=
  let header := fst message in
  let ciphertext := snd message in
  let* c := get_self in
  match certs c !! name with
  | None => raise (no_certificate_error name)
  | Some sender_cert =>
    (match conns c !! name with
     | None => _initialize_receiving_session name header
     | Some _ => ret tt
     end) ;;;
    let* conn := get_conn name in
    let sender_dh_public_key := h_dh_public_key header in
    (if decide (Some sender_dh_public_key <> their_dh_public_key conn)
     then _ratchet_dh_receiving_keys name header else ret tt) ;;;
    let* conn := get_conn name in
    if (h_message_n header <? their_message_n conn)%Z then raise replay_error
    else
      let expected_message_n := their_message_n conn in
      if (h_message_n header =? expected_message_n)%Z then
        let* current_key := lib_arg (receiving_chain_key conn) in
        let ratcheted := _ratchet_receiving_chain current_key in
        let receiving_key := fst ratcheted in
        set_conn name (set_receiving_chain_key (Some (snd ratcheted))) ;;;
        let aes_receiving_key := hmac_to_aes_key receiving_key "decrypt" in
        match decrypt_with_gcm aes_receiving_key ciphertext
                (h_receiver_iv header) (Some (str_header header)) with
        | Some plaintext =>
          set_conn name (set_their_message_n (h_message_n header + 1)) ;;;
          set_conn name (set_need_ratchet true) ;;;
          ret plaintext
        | None => raise tamper_error
        end
      else raise tamper_error
  end.

(** ** Session-level transitions

    What the methods above do to the one entry of [self.conns] they work on,
    as functions from the session and the entropy to the outcome, the new
    session and the remaining entropy.  The section on properties proves that
    the store-level code above computes exactly these; they are not used to
    define it. *)

Definition world_with (w : World) (name : string) (s : Session) (r : entropy) : World :=
  mkWorld (with_conns (insert name s) (self w)) r.

Definition init_sending (mk : KeyPair bytes) (cert : Certificate) (r : entropy)
    : Session * entropy :=
  let dh_keys := fst (generate_eg r) in
  let r1 := snd (generate_eg r) in
  let shared_secret := compute_dh (private mk) (public_key cert) in
  let salt := fst (gen_random_salt r1) in
  (mkSession (private dh_keys) (public dh_keys) None shared_secret
     (Some (fst (hkdf shared_secret salt "sending_chain_init"))) None
     0 (-1) 0 false,
   snd (gen_random_salt r1)).

Definition init_receiving (mk : KeyPair bytes) (cert : Certificate)
    (header : Header) (r : entropy) : Session * entropy :=
  let shared_secret := compute_dh (private mk) (public_key cert) in
  let salt := fst (gen_random_salt r) in
  (mkSession (private mk) (public mk) (Some (h_dh_public_key header))
     shared_secret None
     (Some (snd (hkdf shared_secret salt "receiving_chain_init")))
     0 (-1) 0 false,
   snd (gen_random_salt r)).

Definition dh_ratchet_send (s : Session) (r : entropy)
    : result unit * Session * entropy :=
  let dh_keys := fst (generate_eg r) in
  let r1 := snd (generate_eg r) in
  let s1 := set_my_dh_public_key (public dh_keys)
              (set_my_dh_private_key (private dh_keys)
                 (set_message_n 0 (set_prev_chain_length (message_n s) s))) in
  match their_dh_public_key s with
  | None => (Raise TypeError, s1, r1)
  | Some their_pk =>
    let salt := fst (gen_random_salt r1) in
    let keys := hkdf (compute_dh (private dh_keys) their_pk) salt "dh_ratchet_sending" in
    (Ok tt,
     set_need_ratchet false
       (set_sending_chain_key (Some (snd keys)) (set_root_key (fst keys) s1)),
     snd (gen_random_salt r1))
  end.

Definition dh_ratchet_receive (s : Session) (header : Header) (r : entropy)
    : Session * entropy :=
  let salt := fst (gen_random_salt r) in
  let keys := hkdf (compute_dh (my_dh_private_key s) (h_dh_public_key header))
                   salt "dh_ratchet_receiving" in
  (set_receiving_chain_key (Some (snd keys))
     (set_root_key (fst keys)
        (set_their_dh_public_key (Some (h_dh_public_key header)) s)),
   snd (gen_random_salt r)).

Definition send_session (mk : option (KeyPair bytes)) (gov_pk : bytes)
    (plaintext : string) (s : Session) (r : entropy)
    : result (Header * (bytes * bytes)) * Session * entropy :=
  let '(ratcheted, s1, r1) :=
    if need_ratchet s then dh_ratchet_send s r else (Ok tt, s, r) in
  match ratcheted with
  | Raise e => (Raise e, s1, r1)
  | Ok _ =>
    let receiver_iv := fst (gen_random_salt r1) in
    let r2 := snd (gen_random_salt r1) in
    let gov_iv := fst (gen_random_salt r2) in
    let r3 := snd (gen_random_salt r2) in
    match sending_chain_key s1 with
    | None => (Raise TypeError, s1, r3)
    | Some current_key =>
      let s2 := set_sending_chain_key
                  (Some (snd (_ratchet_sending_chain current_key))) s1 in
      let aes_sending_key :=
        hmac_to_aes_key (fst (_ratchet_sending_chain current_key)) "encrypt" in
      match mk with
      | None => (Raise TypeError, s2, r3)
      | Some mk =>
        let gov_key :=
          hmac_to_aes_key (compute_dh (private mk) gov_pk) gov_encryption_data_str in
        let header :=
          mkHeader (my_dh_public_key s2) (prev_chain_length s2) (message_n s2)
            receiver_iv (public mk)
            (encrypt_with_gcm gov_key (PyBytes aes_sending_key) gov_iv None)
            gov_iv in
        (Ok (header,
             encrypt_with_gcm aes_sending_key (PyStr plaintext) receiver_iv
               (Some (str_header header))),
         set_message_n (message_n s2 + 1) s2, r3)
      end
    end
  end.

Definition receive_session (message : Header * (bytes * bytes)) (s : Session)
    (r : entropy) : result (pydata bytes) * Session * entropy :=
  let header := fst message in
  let '(s1, r1) :=
    if decide (Some (h_dh_public_key header) <> their_dh_public_key s)
    then dh_ratchet_receive s header r else (s, r) in
  if (h_message_n header <? their_message_n s1)%Z then (Raise replay_error, s1, r1)
  else if (h_message_n header =? their_message_n s1)%Z then
    match receiving_chain_key s1 with
    | None => (Raise TypeError, s1, r1)
    | Some current_key =>
      let s2 := set_receiving_chain_key
                  (Some (snd (_ratchet_receiving_chain current_key))) s1 in
      let aes_receiving_key :=
        hmac_to_aes_key (fst (_ratchet_receiving_chain current_key)) "decrypt" in
      match decrypt_with_gcm aes_receiving_key (snd message)
              (h_receiver_iv header) (Some (str_header header)) with
      | Some plaintext =>
        (Ok plaintext,
         set_need_ratchet true (set_their_message_n (h_message_n header + 1) s2),
         r1)
      | None => (Raise tamper_error, s2, r1)
      end
    end
  else (Raise tamper_error, s1, r1).

Definition commit {A} (name : string) (w : World)
    (outcome : result A * Session * entropy) : result A * World :=
  (fst (fst outcome), world_with w name (snd (fst outcome)) (snd outcome)).


(** The session a [send_message] works on: the one on record, or the one
    [_initialize_sending_session] has just created. *)
Definition sending_start (w : World) (name : string) (cert : Certificate)
    (s0 : Session) (r0 : entropy) : Prop :=
  (conns (self w) !! name = Some s0 /\ r0 = rnd w) \/
  (conns (self w) !! name = None /\
   exists mk, my_keys (self w) = Some mk /\
     s0 = fst (init_sending mk cert (rnd w)) /\
     r0 = snd (init_sending mk cert (rnd w))).

Definition receiving_start (w : World) (name : string) (cert : Certificate)
    (header : Header) (s0 : Session) (r0 : entropy) : Prop :=
  (conns (self w) !! name = Some s0 /\ r0 = rnd w) \/
  (conns (self w) !! name = None /\
   exists mk, my_keys (self w) = Some mk /\
     s0 = fst (init_receiving mk cert header (rnd w)) /\
     r0 = snd (init_receiving mk cert header (rnd w))).

(** The AES key [receive_message] derives for a message with this header on
    this session, and a message sealed under it: what a peer has to produce
    for the call to succeed. *)
Definition receiving_aes_key (header : Header) (s : Session) (r : entropy)
    : option bytes :=
  let s1 :=
    if decide (Some (h_dh_public_key header) <> their_dh_public_key s)
    then fst (dh_ratchet_receive s header r) else s in
  match receiving_chain_key s1 with
  | Some current_key =>
    Some (hmac_to_aes_key (fst (_ratchet_receiving_chain current_key)) "decrypt")
  | None => None
  end.

Definition sealed_for (w : World) (name : string) (header : Header)
    (plaintext : string) : option (Header * (bytes * bytes)) :=
  match conns (self w) !! name with
  | Some s =>
    match receiving_aes_key header s (rnd w) with
    | Some key =>
      Some (header,
            encrypt_with_gcm key (PyStr plaintext) (h_receiver_iv header)
              (Some (str_header header)))
    | None => None
    end
  | None => None
  end.

(** ** Traces of calls *)

(** A call made on the client.  The caller catches exceptions; whatever the
    call has mutated stays mutated. *)
Inductive op : Type :=
  | GenerateCertificate (user : string)
  | ReceiveCertificate (certificate : Certificate) (signature : bytes)
  | SendMessage (name : string) (plaintext : string)
  | ReceiveMessage (name : string) (message : Header * (bytes * bytes)).

Definition step (o : op) (w : World) : World :=
  match o with
  | GenerateCertificate user => snd (generate_certificate user w)
  | ReceiveCertificate certificate signature =>
      snd (receive_certificate certificate signature w)
  | SendMessage name plaintext => snd (send_message name plaintext w)
  | ReceiveMessage name message => snd (receive_message name message w)
  end.

Fixpoint run (ops : list op) (w : World) : World :=
  match ops with
  | [] => w
  | o :: rest => run rest (step o w)
  end.

(** ** Invariants of reachable clients *)

(** A session that asks for a DH ratchet on the next send knows the peer's
    ratchet key. *)
Definition session_wf (s : Session) : Prop :=
  need_ratchet s = true -> is_Some (their_dh_public_key s).

(** Every session belongs to a peer whose certificate is on file, and was
    created after the client generated its own identity keys. *)
Definition client_wf (c : MessengerClient) : Prop :=
  forall name s, conns c !! name = Some s ->
    is_Some (certs c !! name) /\ is_Some (my_keys c) /\ session_wf s.

(** What the counters and the receiving ratchet of a session look like on a
    reachable client: the sending counters are never negative, the expected
    counter is at least the initial -1 and at least 0 once a message has been
    accepted, and the receiving chain exists exactly when a ratchet key of
    the peer is on record. *)
Definition session_inv (s : Session) : Prop :=
  0 <= message_n s /\
  0 <= prev_chain_length s /\
  -1 <= their_message_n s /\
  (need_ratchet s = true -> 0 <= their_message_n s) /\
  (is_Some (their_dh_public_key s) <-> is_Some (receiving_chain_key s)).

(** The client's own certificate and its identity keys are set together:
    the certificate carries the public half of the keys. *)
Definition identity_wf (c : MessengerClient) : Prop :=
  match my_keys c, my_certificate c with
  | Some keys, Some certificate => public_key certificate = public keys
  | None, None => True
  | _, _ => False
  end.

Definition is_generate (o : op) : bool :=
  match o with
  | GenerateCertificate _ => true
  | _ => false
  end.

(** The number of [receive_message] calls from [name] along a trace that
    return a plaintext. *)
Fixpoint receives_accepted (name : string) (ops : list op) (w : World) : Z :=
  match ops with
  | [] => 0
  | o :: rest =>
    (match o with
     | ReceiveMessage sender message =>
       if decide (sender = name) then
         match fst (receive_message sender message w) with
         | Ok _ => 1
         | Raise _ => 0
         end
       else 0
     | _ => 0
     end) + receives_accepted name rest (step o w)
  end.

(** ** Contracts of the primitive library and of the specification *)

(** Decrypting with the key, IV and associated data used to encrypt gives
    back what was encrypted. *)
Definition gcm_correct : Prop :=
  forall key data iv aad,
    decrypt_with_gcm key (encrypt_with_gcm key data iv aad) iv aad = Some data.

(** The specification's [hash_ratchet_step]:
    message_key = HMAC(chain_key, "message_key");
    next_chain_key = HMAC(chain_key, "next_chain_key"). *)
Definition hash_ratchet_step (chain_key : bytes) : bytes * bytes :=
  (hmac_to_hmac_key chain_key "message_key",
   hmac_to_hmac_key chain_key "next_chain_key").

End Client.

(** ** A symbolic instance of the primitive library

    Byte strings are terms spelled out as strings, the entropy is a counter.
    The instance is not secure; it satisfies the functional contracts the
    client relies on: Diffie-Hellman is symmetric on generated pairs, the
    derivations are deterministic and separate their labels, and GCM
    decryption returns the encrypted data under the same key, IV and
    associated data and fails under any other. *)
Module Toy.

Definition show_nat (n : nat) : string := NilEmpty.string_of_uint (Nat.to_uint n).
Definition show_Z (z : Z) : string := NilEmpty.string_of_int (Z.to_int z).

Definition term (f : string) (args : list string) : string :=
  String.append f (String.append "(" (String.append (String.concat "," args) ")")).

(** The identifier of a key ["sk<id>"] or ["pk<id>"]. *)
Definition key_id (k : string) : string := substring 2 (String.length k - 2) k.

Definition toy_generate_eg (n : nat) : KeyPair string * nat :=
  (mkKeyPair (String.append "sk" (show_nat n)) (String.append "pk" (show_nat n)), S n).

Definition toy_gen_random_salt (n : nat) : string * nat :=
  (String.append "salt" (show_nat n), S n).

Definition toy_compute_dh (priv pub : string) : string :=
  let a := key_id priv in
  let b := key_id pub in
  if String.leb a b then term "dh" [a; b] else term "dh" [b; a].

Definition toy_sign (priv : string) (message : string) : string :=
  term "sig" [key_id priv; message].

Definition toy_verify_with_ecdsa (pub : string) (message : string) (sig : string) : bool :=
  bool_decide (sig = term "sig" [key_id pub; message]).

Definition toy_hkdf (ikm salt info : string) : string * string :=
  (term "hkdf1" [ikm; salt; info], term "hkdf2" [ikm; salt; info]).

Definition toy_body (data : pydata string) : string :=
  match data with
  | PyStr s => String "s"%char s
  | PyBytes b => String "b"%char b
  end.

Definition toy_aad (aad : option string) : string :=
  match aad with
  | Some a => String "+"%char a
  | None => "-"
  end.

Definition toy_tag (key body iv : string) (aad : option string) : string :=
  term "tag" [key; iv; toy_aad aad; body].

Definition toy_encrypt_with_gcm (key : string) (data : pydata string) (iv : string)
    (aad : option string) : string * string :=
  (toy_body data, toy_tag key (toy_body data) iv aad).

Definition toy_decrypt_with_gcm (key : string) (ciphertext : string * string)
    (iv : string) (aad : option string) : option (pydata string) :=
  if bool_decide (snd ciphertext = toy_tag key (fst ciphertext) iv aad) then
    match fst ciphertext with
    | String "s"%char s => Some (PyStr s)
    | String "b"%char b => Some (PyBytes b)
    | _ => None
    end
  else None.

#[export] Instance toy_lib : Lib := {|
  bytes := string;
  entropy := nat;
  gen_random_salt := toy_gen_random_salt;
  generate_eg := toy_generate_eg;
  compute_dh := toy_compute_dh;
  verify_with_ecdsa := toy_verify_with_ecdsa;
  hmac_to_aes_key := fun key label => term "aes" [key; label];
  hmac_to_hmac_key := fun key label => term "hmac" [key; label];
  hkdf := toy_hkdf;
  encrypt_with_gcm := toy_encrypt_with_gcm;
  decrypt_with_gcm := toy_decrypt_with_gcm;
  gov_encryption_data_str := "AES-GENERATION";
|}.

#[export] Instance toy_repr : Repr := {|
  str_certificate := fun c =>
    term "certificate" [username c; public_key c];
  str_header := fun h =>
    term "header"
      [h_dh_public_key h; show_Z (h_prev_chain_length h); show_Z (h_message_n h);
       h_receiver_iv h; h_v_gov h; fst (h_c_gov h); snd (h_c_gov h); h_iv_gov h];
|}.

(** The certificate authority and the escrow authority. *)
Definition ca_keys : KeyPair string := mkKeyPair "skCA" "pkCA".
Definition gov_keys : KeyPair string := mkKeyPair "skGOV" "pkGOV".

Definition signed (c : Certificate) : string :=
  toy_sign (private ca_keys) (str_certificate c).

(** Alice and Bob, each with their own entropy, after generating their
    certificates and receiving the other's. *)
Definition alice_start : World := mkWorld (new_client (public ca_keys) (public gov_keys)) 0%nat.
Definition bob_start : World := mkWorld (new_client (public ca_keys) (public gov_keys)) 100%nat.

Definition alice_cert : Certificate := mkCertificate "alice" "pk0".
Definition bob_cert : Certificate := mkCertificate "bob" "pk100".

Definition alice_ready : World :=
  run [GenerateCertificate "alice"; ReceiveCertificate bob_cert (signed bob_cert)] alice_start.
Definition bob_ready : World :=
  run [GenerateCertificate "bob"; ReceiveCertificate alice_cert (signed alice_cert)] bob_start.

(** Alice sends three messages to Bob, then receives a reply sealed for her
    session under a new ratchet key, then sends again. *)
Definition alice_sent3 : World :=
  run [SendMessage "bob" "one"; SendMessage "bob" "two"; SendMessage "bob" "three"]
      alice_ready.

Definition reply_header : Header :=
  mkHeader "pk200" 0 (-1) "salt900" "pk100" ("", "") "".

Definition reply : Header * (string * string) :=
  match sealed_for alice_sent3 "bob" reply_header "hi" with
  | Some message => message
  | None => (reply_header, ("", ""))
  end.

Definition alice_replied : World := step (ReceiveMessage "bob" reply) alice_sent3.

(** Alice's first message to Bob, as [send_message] returns it. *)
Definition hello : Header * (string * string) :=
  match fst (send_message "bob" "hello" alice_ready) with
  | Ok message => message
  | Raise _ => (reply_header, ("", ""))
  end.

(** A message below the expected index under a ratchet key Alice has not
    seen, and one with the expected index whose ciphertext does not
    authenticate. *)
Definition stale : Header * (string * string) :=
  (mkHeader "pk200" 0 (-2) "salt900" "pk100" ("", "") "", ("", "")).

Definition garbled : Header * (string * string) :=
  (mkHeader "pk200" 0 0 "salt901" "pk100" ("", "") "", ("shi", "no tag")).

Definition alice_sent4 : World := step (SendMessage "bob" "four") alice_replied.

(** Alice's session with Bob once the reply has been received, and Bob's
    identity keys. *)
Definition alice_session_replied : Session :=
  mkSession "sk1" "pk1" (Some "pk200")
    "hkdf1(dh(1,200),salt9,dh_ratchet_receiving)"
    (Some "hmac(hmac(hmac(hkdf1(dh(0,100),salt2,sending_chain_init),next_chain_key),next_chain_key),next_chain_key)")
    (Some "hmac(hkdf2(dh(1,200),salt9,dh_ratchet_receiving),next_chain_key)")
    3 0 0 true.

Definition bob_keys : KeyPair string := mkKeyPair "sk100" "pk100".

(** Alice's identity keys, her session with Bob after the three sends, the
    whole trace that leads to her state after the reply, and a client that
    holds Bob's certificate but has not generated its own. *)
Definition alice_keys : KeyPair string := mkKeyPair "sk0" "pk0".

Definition alice_session3 : Session :=
  mkSession "sk1" "pk1" None "dh(0,100)"
    (Some "hmac(hmac(hmac(hkdf1(dh(0,100),salt2,sending_chain_init),next_chain_key),next_chain_key),next_chain_key)")
    None 3 (-1) 0 false.

Definition alice_trace : list op :=
  [GenerateCertificate "alice"; ReceiveCertificate bob_cert (signed bob_cert);
   SendMessage "bob" "one"; SendMessage "bob" "two"; SendMessage "bob" "three";
   ReceiveMessage "bob" reply].

Definition alice_no_keys : World :=
  run [ReceiveCertificate bob_cert (signed bob_cert)] alice_start.

End Toy.

(** * Properties *)

Section Props.
Context `{L : Lib} `{R : !Repr}.

(** ** The store-level code computes the session-level transitions *)

Ltac unfold_monad :=
  unfold bind, ret, raise, get_self, modify_self, draw, lib_arg, get_my_keys,
    get_conn, put_conn, set_conn, get_cert, with_conns, with_certs,
    commit, world_with in *.

Ltac reduce_state :=
  cbn beta iota zeta delta
    [fst snd self rnd conns certs my_keys ca_public_key gov_public_key
     my_certificate my_dh_private_key my_dh_public_key their_dh_public_key
     root_key sending_chain_key receiving_chain_key message_n their_message_n
     prev_chain_length need_ratchet set_my_dh_private_key set_my_dh_public_key
     set_their_dh_public_key set_root_key set_sending_chain_key
     set_receiving_chain_key set_message_n set_their_message_n
     set_prev_chain_length set_need_ratchet].

Ltac run_monad :=
  repeat progress
    (unfold_monad; reduce_state;
     rewrite ?alter_insert_eq, ?lookup_insert_eq, ?insert_insert_eq).

Lemma ratchet_dh_sending_keys_run w name s :
  conns (self w) !! name = Some s ->
  _ratchet_dh_sending_keys name w = commit name w (dh_ratchet_send s (rnd w)).
Proof.
  intros Hs. destruct w as [[ca gov cs ce mc mk] r]. simpl in *.
  rewrite <- (insert_id cs name s Hs).
  unfold _ratchet_dh_sending_keys, dh_ratchet_send.
  run_monad. destruct (their_dh_public_key s); run_monad; reflexivity.
Qed.

Lemma ratchet_dh_receiving_keys_run w name s header :
  conns (self w) !! name = Some s ->
  _ratchet_dh_receiving_keys name header w =
    (Ok tt, world_with w name (fst (dh_ratchet_receive s header (rnd w)))
              (snd (dh_ratchet_receive s header (rnd w)))).
Proof.
  intros Hs. destruct w as [[ca gov cs ce mc mk] r]. simpl in *.
  rewrite <- (insert_id cs name s Hs).
  unfold _ratchet_dh_receiving_keys, dh_ratchet_receive.
  run_monad. reflexivity.
Qed.

Lemma send_message_run w name plaintext cert s :
  certs (self w) !! name = Some cert ->
  conns (self w) !! name = Some s ->
  send_message name plaintext w =
    commit name w
      (send_session (my_keys (self w)) (gov_public_key (self w)) plaintext s (rnd w)).
Proof.
  intros Hc Hs. destruct w as [[ca gov cs ce mc mk] r]. simpl in *.
  rewrite <- (insert_id cs name s Hs).
  unfold send_message, send_session.
  run_monad. rewrite Hc. run_monad.
  destruct (need_ratchet s).
  - unfold _ratchet_dh_sending_keys, dh_ratchet_send. run_monad.
    destruct (their_dh_public_key s); run_monad; [|reflexivity].
    destruct mk; run_monad; reflexivity.
  - run_monad. destruct (sending_chain_key s); run_monad; [|reflexivity].
    destruct mk; run_monad; reflexivity.
Qed.

Lemma receive_message_run w name message cert s :
  certs (self w) !! name = Some cert ->
  conns (self w) !! name = Some s ->
  receive_message name message w =
    commit name w (receive_session message s (rnd w)).
Proof.
  intros Hc Hs. destruct w as [[ca gov cs ce mc mk] r]. simpl in *.
  rewrite <- (insert_id cs name s Hs).
  unfold receive_message, receive_session.
  run_monad. rewrite Hc. run_monad.
  destruct (decide _).
  - unfold _ratchet_dh_receiving_keys, dh_ratchet_receive. run_monad.
    destruct (_ <? _)%Z; run_monad; [reflexivity|].
    destruct (_ =? _)%Z; run_monad; [|reflexivity].
    destruct (decrypt_with_gcm _ _ _ _); run_monad; reflexivity.
  - run_monad.
    destruct (_ <? _)%Z; run_monad; [reflexivity|].
    destruct (_ =? _)%Z; run_monad; [|reflexivity].
    destruct (receiving_chain_key s); run_monad; [|reflexivity].
    destruct (decrypt_with_gcm _ _ _ _); run_monad; reflexivity.
Qed.


Lemma world_with_lookup w name s r :
  conns (self (world_with w name s r)) !! name = Some s.
Proof. unfold world_with, with_conns. simpl. apply lookup_insert_eq. Qed.

Lemma world_with_lookup_ne w name other s r :
  name <> other ->
  conns (self (world_with w name s r)) !! other = conns (self w) !! other.
Proof. intros. unfold world_with, with_conns. simpl. by apply lookup_insert_ne. Qed.

Lemma world_with_same w name s :
  conns (self w) !! name = Some s -> world_with w name s (rnd w) = w.
Proof.
  intros Hs. destruct w as [[ca gov cs ce mc mk] r]. unfold world_with, with_conns.
  simpl in *. by rewrite insert_id.
Qed.

Lemma send_message_no_certificate w name plaintext :
  certs (self w) !! name = None ->
  send_message name plaintext w = (Raise (no_certificate_error name), w).
Proof. intros Hc. unfold send_message. run_monad. by rewrite Hc. Qed.

Lemma receive_message_no_certificate w name message :
  certs (self w) !! name = None ->
  receive_message name message w = (Raise (no_certificate_error name), w).
Proof. intros Hc. unfold receive_message. run_monad. by rewrite Hc. Qed.

Lemma initialize_sending_session_run w name cert mk :
  certs (self w) !! name = Some cert ->
  my_keys (self w) = Some mk ->
  _initialize_sending_session name w =
    (Ok tt, world_with w name (fst (init_sending mk cert (rnd w)))
              (snd (init_sending mk cert (rnd w)))).
Proof.
  intros Hc Hk. destruct w as [[ca gov cs ce mc mk'] r]. simpl in *. subst mk'.
  unfold _initialize_sending_session, init_sending.
  run_monad. rewrite Hc. run_monad. reflexivity.
Qed.

Lemma initialize_receiving_session_run w name header cert mk :
  certs (self w) !! name = Some cert ->
  my_keys (self w) = Some mk ->
  _initialize_receiving_session name header w =
    (Ok tt, world_with w name (fst (init_receiving mk cert header (rnd w)))
              (snd (init_receiving mk cert header (rnd w)))).
Proof.
  intros Hc Hk. destruct w as [[ca gov cs ce mc mk'] r]. simpl in *. subst mk'.
  unfold _initialize_receiving_session, init_receiving.
  run_monad. rewrite Hc. run_monad. reflexivity.
Qed.

(** A first send creates the session and then proceeds as on an existing
    one. *)
Lemma send_message_fresh w name plaintext cert mk :
  certs (self w) !! name = Some cert ->
  conns (self w) !! name = None ->
  my_keys (self w) = Some mk ->
  send_message name plaintext w =
    send_message name plaintext
      (world_with w name (fst (init_sending mk cert (rnd w)))
         (snd (init_sending mk cert (rnd w)))).
Proof.
  intros Hc Hs Hk.
  rewrite (send_message_run (world_with _ _ _ _) name plaintext cert _ Hc
             (world_with_lookup _ _ _ _)).
  destruct w as [[ca gov cs ce mc mk'] r]. simpl in *. subst mk'.
  unfold send_message at 1. run_monad. rewrite Hc, Hs.
  unfold _initialize_sending_session. run_monad. rewrite Hc. run_monad.
  unfold send_session, init_sending. run_monad. reflexivity.
Qed.

Lemma send_message_fresh_no_keys w name plaintext cert :
  certs (self w) !! name = Some cert ->
  conns (self w) !! name = None ->
  my_keys (self w) = None ->
  send_message name plaintext w =
    (Raise TypeError, mkWorld (self w) (snd (generate_eg (rnd w)))).
Proof.
  intros Hc Hs Hk. destruct w as [[ca gov cs ce mc mk'] r]. simpl in *. subst mk'.
  unfold send_message. run_monad. rewrite Hc, Hs.
  unfold _initialize_sending_session. run_monad. rewrite Hc. run_monad.
  reflexivity.
Qed.

Lemma receive_message_fresh w name message cert mk :
  certs (self w) !! name = Some cert ->
  conns (self w) !! name = None ->
  my_keys (self w) = Some mk ->
  receive_message name message w =
    receive_message name message
      (world_with w name (fst (init_receiving mk cert (fst message) (rnd w)))
         (snd (init_receiving mk cert (fst message) (rnd w)))).
Proof.
  intros Hc Hs Hk.
  rewrite (receive_message_run (world_with _ _ _ _) name message cert _ Hc
             (world_with_lookup _ _ _ _)).
  destruct w as [[ca gov cs ce mc mk'] r]. simpl in *. subst mk'.
  unfold receive_message at 1. run_monad. rewrite Hc, Hs.
  unfold _initialize_receiving_session. run_monad. rewrite Hc. run_monad.
  unfold receive_session, init_receiving. run_monad.
  repeat (destruct (decide (_ <> _)) as [Hne|_]; [by destruct Hne|]; run_monad).
  destruct (_ <? _)%Z; run_monad; [reflexivity|].
  destruct (_ =? _)%Z; run_monad; [|reflexivity].
  destruct (decrypt_with_gcm _ _ _ _); run_monad; reflexivity.
Qed.

Lemma receive_message_fresh_no_keys w name message cert :
  certs (self w) !! name = Some cert ->
  conns (self w) !! name = None ->
  my_keys (self w) = None ->
  receive_message name message w = (Raise TypeError, w).
Proof.
  intros Hc Hs Hk. destruct w as [[ca gov cs ce mc mk'] r]. simpl in *. subst mk'.
  unfold receive_message. run_monad. rewrite Hc, Hs.
  unfold _initialize_receiving_session. run_monad. rewrite Hc. run_monad.
  reflexivity.
Qed.

(** ** The hash ratchet *)

(** C10: for every chain key, [_ratchet_sending_chain] and
    [_ratchet_receiving_chain] return the same pair, the HMAC-derived key
    with label "message_key" and the one with label "next_chain_key": both
    implement the specification's [hash_ratchet_step]. *)
Theorem ratchet_chains_implement_hash_ratchet_step :
  forall current_key : bytes,
    _ratchet_sending_chain current_key = hash_ratchet_step current_key /\
    _ratchet_receiving_chain current_key = hash_ratchet_step current_key /\
    _ratchet_sending_chain current_key = _ratchet_receiving_chain current_key /\
    fst (_ratchet_sending_chain current_key) =
      hmac_to_hmac_key current_key "message_key" /\
    snd (_ratchet_sending_chain current_key) =
      hmac_to_hmac_key current_key "next_chain_key".
Proof.
  intros current_key.
  unfold _ratchet_sending_chain, _ratchet_receiving_chain, hash_ratchet_step.
  repeat split.
Qed.

(** ** The certificate store *)

(** C5: [receive_certificate] raises exactly when the signature does not
    verify against the certificate authority's key; when it verifies the
    certificate is stored under its username, replacing any earlier entry,
    and nothing else changes; when it does not, the client is unchanged. *)
Theorem receive_certificate_spec :
  forall (w : World) (certificate : Certificate) (signature : bytes),
    let valid :=
      verify_with_ecdsa (ca_public_key (self w)) (str_certificate certificate)
        signature in
    receive_certificate certificate signature w =
      (if valid
       then (Ok tt,
             mkWorld (with_certs (insert (username certificate) certificate) (self w))
                     (rnd w))
       else (Raise certificate_error, w)) /\
    (raises (fst (receive_certificate certificate signature w)) <-> valid = false) /\
    certs (self (snd (receive_certificate certificate signature w))) =
      (if valid then <[username certificate := certificate]> (certs (self w))
       else certs (self w)) /\
    conns (self (snd (receive_certificate certificate signature w))) = conns (self w).
Proof.
  intros w certificate signature valid.
  assert (Hrun : receive_certificate certificate signature w =
            (if valid
             then (Ok tt,
                   mkWorld (with_certs (insert (username certificate) certificate)
                              (self w)) (rnd w))
             else (Raise certificate_error, w))).
  { unfold receive_certificate. run_monad. fold valid. by destruct valid. }
  rewrite Hrun. split; [reflexivity|].
  destruct valid; simpl; repeat split; intros; try done.
Qed.

(** ** The Diffie-Hellman ratchet and session initialisation *)

(** On a well-formed client a session that asks for a ratchet has the peer's
    ratchet key. *)
Lemma client_wf_their_key c name s :
  client_wf c -> conns c !! name = Some s -> need_ratchet s = true ->
  exists their_pk, their_dh_public_key s = Some their_pk.
Proof.
  intros Hwf Hs Hn. destruct (Hwf name s Hs) as (_ & _ & Hswf).
  destruct (Hswf Hn) as [pk Hpk]. eauto.
Qed.

(** C8: on a session with [need_ratchet] set, [_ratchet_dh_sending_keys]
    records the old [message_n] as [prev_chain_length], resets [message_n]
    to 0, installs a freshly generated key pair, derives root key and
    sending chain key by HKDF from DH(new private key, peer's ratchet key)
    with a fresh salt and the label "dh_ratchet_sending", clears
    [need_ratchet], and leaves the other fields of the session, the other
    sessions and the rest of the client as they were. *)
Theorem ratchet_dh_sending_keys_spec :
  forall (w : World) (name : string) (s : Session),
    client_wf (self w) ->
    conns (self w) !! name = Some s ->
    need_ratchet s = true ->
    let dh_keys := fst (generate_eg (rnd w)) in
    let salt := fst (gen_random_salt (snd (generate_eg (rnd w)))) in
    exists (w' : World) (s' : Session) (their_pk : bytes),
      _ratchet_dh_sending_keys name w = (Ok tt, w') /\
      conns (self w') !! name = Some s' /\
      their_dh_public_key s = Some their_pk /\
      prev_chain_length s' = message_n s /\
      message_n s' = 0 /\
      my_dh_private_key s' = private dh_keys /\
      my_dh_public_key s' = public dh_keys /\
      (root_key s', sending_chain_key s') =
        (fst (hkdf (compute_dh (private dh_keys) their_pk) salt "dh_ratchet_sending"),
         Some (snd (hkdf (compute_dh (private dh_keys) their_pk) salt
                      "dh_ratchet_sending"))) /\
      need_ratchet s' = false /\
      their_dh_public_key s' = their_dh_public_key s /\
      receiving_chain_key s' = receiving_chain_key s /\
      their_message_n s' = their_message_n s /\
      (forall other, other <> name ->
         conns (self w') !! other = conns (self w) !! other) /\
      certs (self w') = certs (self w) /\
      my_keys (self w') = my_keys (self w) /\
      my_certificate (self w') = my_certificate (self w) /\
      ca_public_key (self w') = ca_public_key (self w) /\
      gov_public_key (self w') = gov_public_key (self w) /\
      rnd w' = snd (gen_random_salt (snd (generate_eg (rnd w)))).
Proof.
  intros w name s Hwf Hs Hn dh_keys salt.
  destruct (client_wf_their_key _ _ _ Hwf Hs Hn) as [their_pk Hpk].
  rewrite (ratchet_dh_sending_keys_run w name s Hs).
  unfold dh_ratchet_send. rewrite Hpk. unfold commit. simpl.
  eexists _, _, their_pk. split; [reflexivity|].
  split; [apply world_with_lookup|].
  repeat split; try done.
  intros other Hne. by apply world_with_lookup_ne.
Qed.

(** C9, as the code has it: [_initialize_receiving_session] draws no key
    pair; the session's local ratchet pair is the client's identity pair.
    The rest is as for the sending side: root key DH(identity private key,
    peer's certified key), counters 0 and -1, [need_ratchet] false, the
    receiving chain key the second output of HKDF with a fresh salt and the
    label "receiving_chain_init", and the peer's ratchet key taken from the
    header. *)
Theorem initialize_receiving_session_spec :
  forall (w : World) (name : string) (header : Header) (cert : Certificate)
         (mk : KeyPair bytes),
    certs (self w) !! name = Some cert ->
    my_keys (self w) = Some mk ->
    let shared := compute_dh (private mk) (public_key cert) in
    let salt := fst (gen_random_salt (rnd w)) in
    exists (w' : World) (s : Session),
      _initialize_receiving_session name header w = (Ok tt, w') /\
      conns (self w') !! name = Some s /\
      my_dh_private_key s = private mk /\
      my_dh_public_key s = public mk /\
      their_dh_public_key s = Some (h_dh_public_key header) /\
      root_key s = shared /\
      sending_chain_key s = None /\
      receiving_chain_key s = Some (snd (hkdf shared salt "receiving_chain_init")) /\
      message_n s = 0 /\
      their_message_n s = -1 /\
      prev_chain_length s = 0 /\
      need_ratchet s = false /\
      rnd w' = snd (gen_random_salt (rnd w)).
Proof.
  intros w name header cert mk Hc Hk shared salt.
  rewrite (initialize_receiving_session_run w name header cert mk Hc Hk).
  eexists _, _. split; [reflexivity|].
  split; [apply world_with_lookup|].
  repeat split.
Qed.

(** ** Receiving *)

(** The outcome of [receive_session] by the position of the header's index
    relative to the expected counter. *)
Lemma receive_session_below message s r :
  h_message_n (fst message) < their_message_n s ->
  fst (fst (receive_session message s r)) = Raise replay_error.
Proof.
  intros Hlt. unfold receive_session.
  destruct (decide _); simpl;
    (destruct (Z.ltb_spec (h_message_n message.1) (their_message_n s)); [done|lia]).
Qed.

Lemma receive_session_above message s r :
  their_message_n s < h_message_n (fst message) ->
  fst (fst (receive_session message s r)) = Raise tamper_error.
Proof.
  intros Hlt. unfold receive_session.
  destruct (decide _); simpl;
    (destruct (Z.ltb_spec (h_message_n message.1) (their_message_n s)); [lia|]);
    (destruct (Z.eqb_spec (h_message_n message.1) (their_message_n s)); [lia|done]).
Qed.

Lemma receive_session_replay_only_below message s r :
  fst (fst (receive_session message s r)) = Raise replay_error ->
  h_message_n (fst message) < their_message_n s.
Proof.
  unfold receive_session.
  destruct (decide _); simpl;
    (destruct (Z.ltb_spec (h_message_n message.1) (their_message_n s)); [done|]);
    (destruct (Z.eqb_spec (h_message_n message.1) (their_message_n s));
       [|discriminate]);
    repeat case_match; simpl; discriminate.
Qed.

Lemma receive_session_ok_only_expected message s r data :
  fst (fst (receive_session message s r)) = Ok data ->
  h_message_n (fst message) = their_message_n s.
Proof.
  unfold receive_session.
  destruct (decide _); simpl;
    (destruct (Z.ltb_spec (h_message_n message.1) (their_message_n s));
       [discriminate|]);
    (destruct (Z.eqb_spec (h_message_n message.1) (their_message_n s));
       [done|discriminate]).
Qed.

(** C4: on an existing session, [receive_message] fails with the replay
    error exactly when the header's index is below the expected counter,
    fails with the tamper error when it is above it, and returns nothing in
    either case; the comparison is with the counter as it was before the
    call, which a DH ratchet triggered by the header does not touch. *)
Theorem receive_message_counter_checks :
  forall (w : World) (name : string) (header : Header)
         (ciphertext : bytes * bytes) (cert : Certificate) (s : Session),
    certs (self w) !! name = Some cert ->
    conns (self w) !! name = Some s ->
    let outcome := fst (receive_message name (header, ciphertext) w) in
    (outcome = Raise replay_error <-> h_message_n header < their_message_n s) /\
    (their_message_n s < h_message_n header -> outcome = Raise tamper_error) /\
    (h_message_n header <> their_message_n s -> raises outcome) /\
    (forall data, outcome = Ok data -> h_message_n header = their_message_n s).
Proof.
  intros w name header ciphertext cert s Hc Hs outcome. subst outcome.
  rewrite (receive_message_run w name _ cert s Hc Hs). unfold commit. simpl.
  split; [split|split; [|split]].
  - apply receive_session_replay_only_below.
  - apply (receive_session_below (header, ciphertext)).
  - apply (receive_session_above (header, ciphertext)).
  - intros Hne.
    destruct (fst (fst (receive_session (header, ciphertext) s (rnd w)))) eqn:E;
      [|done].
    apply receive_session_ok_only_expected in E. done.
  - intros data. apply receive_session_ok_only_expected.
Qed.

(** What a failing [receive_session] leaves of the session: everything but
    the three fields of the receiving ratchet. *)
Lemma receive_session_failure_fields message s r :
  raises (fst (fst (receive_session message s r))) ->
  let s' := snd (fst (receive_session message s r)) in
  their_message_n s' = their_message_n s /\
  need_ratchet s' = need_ratchet s /\
  message_n s' = message_n s /\
  prev_chain_length s' = prev_chain_length s /\
  sending_chain_key s' = sending_chain_key s /\
  my_dh_private_key s' = my_dh_private_key s /\
  my_dh_public_key s' = my_dh_public_key s.
Proof.
  unfold receive_session.
  destruct (decide _); simpl;
    destruct (_ <? _)%Z; simpl; try done;
    destruct (_ =? _)%Z; simpl; try done;
    repeat case_match; simpl; done.
Qed.

Lemma receive_session_failure_same_key message s r :
  raises (fst (fst (receive_session message s r))) ->
  Some (h_dh_public_key (fst message)) = their_dh_public_key s ->
  let s' := snd (fst (receive_session message s r)) in
  their_dh_public_key s' = their_dh_public_key s /\
  root_key s' = root_key s /\
  snd (receive_session message s r) = r /\
  (h_message_n (fst message) <> their_message_n s -> s' = s).
Proof.
  intros Hr Hk. revert Hr. unfold receive_session.
  destruct (decide _) as [Hne|_]; [by destruct Hne|]. simpl.
  destruct (_ <? _)%Z; simpl; try done.
  destruct (Z.eqb_spec (h_message_n message.1) (their_message_n s)); simpl;
    try done.
  repeat case_match; simpl; done.
Qed.

(** What a failing [receive_session] commits.  When the header carries a
    ratchet key other than the one on record, the DH ratchet has run: the
    key is recorded, [root_key] and [receiving_chain_key] are the two halves
    of the HKDF output, one salt is drawn; and if the index was the expected
    one (so that it is the decryption that failed) the new chain has moreover
    advanced one hash step. *)
Lemma receive_session_failure_ratcheted message s r :
  raises (fst (fst (receive_session message s r))) ->
  Some (h_dh_public_key (fst message)) <> their_dh_public_key s ->
  let s' := snd (fst (receive_session message s r)) in
  let keys := hkdf (compute_dh (my_dh_private_key s) (h_dh_public_key (fst message)))
                   (fst (gen_random_salt r)) "dh_ratchet_receiving" in
  their_dh_public_key s' = Some (h_dh_public_key (fst message)) /\
  root_key s' = fst keys /\
  snd (receive_session message s r) = snd (gen_random_salt r) /\
  receiving_chain_key s' =
    Some (if (h_message_n (fst message) =? their_message_n s)%Z
          then snd (_ratchet_receiving_chain (snd keys)) else snd keys).
Proof.
  intros Hr Hk. revert Hr. unfold receive_session.
  destruct (decide _) as [_|Heq]; [|by destruct (Heq Hk)]. simpl.
  destruct (_ <? _)%Z eqn:Hlt; simpl.
  - destruct (Z.eqb_spec (h_message_n message.1) (their_message_n s)); [|done].
    apply Z.ltb_lt in Hlt. lia.
  - destruct (_ =? _)%Z; simpl; try done.
    repeat case_match; simpl; done.
Qed.

(** With the ratchet key on record no salt is drawn, and the receiving chain
    advances one hash step exactly when the index was the expected one. *)
Lemma receive_session_failure_chain message s r :
  raises (fst (fst (receive_session message s r))) ->
  Some (h_dh_public_key (fst message)) = their_dh_public_key s ->
  let s' := snd (fst (receive_session message s r)) in
  receiving_chain_key s' =
    if (h_message_n (fst message) =? their_message_n s)%Z
    then (fun current_key => snd (_ratchet_receiving_chain current_key))
           <$> receiving_chain_key s
    else receiving_chain_key s.
Proof.
  intros Hr Hk. revert Hr. unfold receive_session.
  destruct (decide _) as [Hne|_]; [by destruct Hne|]. simpl.
  destruct (_ <? _)%Z eqn:Hlt; simpl.
  - destruct (Z.eqb_spec (h_message_n message.1) (their_message_n s)); [|done].
    apply Z.ltb_lt in Hlt. lia.
  - destruct (_ =? _)%Z; simpl; try done.
    repeat case_match; simpl; done.
Qed.

(** C2, as the code has it: a failing [receive_message] on an existing
    session leaves [their_message_n], [need_ratchet] and the sending side of
    the session as they were, but not the receiving ratchet, which is never
    rolled back.  If the header carries the ratchet key already on record,
    [their_dh_public_key] and [root_key] are unchanged; if moreover the
    failure is a counter failure (index different from the expected one) the
    whole client and the entropy are unchanged.  Other sessions and the
    certificates are never touched.  Without a certificate for the name the
    call fails before it touches anything.  With one, what the failed call
    has done stays: under a header key other than the one on record the DH
    ratchet is committed ([their_dh_public_key] is the header's key,
    [root_key] and [receiving_chain_key] are the HKDF output over the new DH
    secret and a freshly drawn salt), and under the expected index the
    receiving chain is left one hash step further than where the call (after
    that ratchet, if any) found it. *)
Theorem receive_message_failure_preserves :
  forall (w w' : World) (name : string) (message : Header * (bytes * bytes))
         (s : Session) (e : exn),
    conns (self w) !! name = Some s ->
    receive_message name message w = (Raise e, w') ->
    exists s' : Session,
      conns (self w') !! name = Some s' /\
      their_message_n s' = their_message_n s /\
      need_ratchet s' = need_ratchet s /\
      message_n s' = message_n s /\
      prev_chain_length s' = prev_chain_length s /\
      sending_chain_key s' = sending_chain_key s /\
      my_dh_private_key s' = my_dh_private_key s /\
      my_dh_public_key s' = my_dh_public_key s /\
      (Some (h_dh_public_key (fst message)) = their_dh_public_key s ->
         their_dh_public_key s' = their_dh_public_key s /\
         root_key s' = root_key s /\
         (h_message_n (fst message) <> their_message_n s -> w' = w)) /\
      (forall other, other <> name ->
         conns (self w') !! other = conns (self w) !! other) /\
      certs (self w') = certs (self w) /\
      (certs (self w) !! name = None -> w' = w) /\
      (is_Some (certs (self w) !! name) ->
         (Some (h_dh_public_key (fst message)) <> their_dh_public_key s ->
            let keys :=
              hkdf (compute_dh (my_dh_private_key s) (h_dh_public_key (fst message)))
                   (fst (gen_random_salt (rnd w))) "dh_ratchet_receiving" in
            their_dh_public_key s' = Some (h_dh_public_key (fst message)) /\
            root_key s' = fst keys /\
            rnd w' = snd (gen_random_salt (rnd w)) /\
            receiving_chain_key s' =
              Some (if (h_message_n (fst message) =? their_message_n s)%Z
                    then snd (_ratchet_receiving_chain (snd keys))
                    else snd keys)) /\
         (Some (h_dh_public_key (fst message)) = their_dh_public_key s ->
            rnd w' = rnd w /\
            receiving_chain_key s' =
              if (h_message_n (fst message) =? their_message_n s)%Z
              then (fun current_key => snd (_ratchet_receiving_chain current_key))
                     <$> receiving_chain_key s
              else receiving_chain_key s)).
Proof.
  intros w w' name message s e Hs Hrun.
  destruct (certs (self w) !! name) as [cert|] eqn:Hc.
  - rewrite (receive_message_run w name message cert s Hc Hs) in Hrun.
    unfold commit in Hrun. injection Hrun as Hres Hw'.
    assert (Hr : raises (fst (fst (receive_session message s (rnd w)))))
      by (rewrite Hres; exact I).
    destruct (receive_session_failure_fields message s (rnd w) Hr)
      as (H1 & H2 & H3 & H4 & H5 & H6 & H7).
    exists (snd (fst (receive_session message s (rnd w)))). subst w'.
    split; [apply world_with_lookup|].
    repeat (split; [assumption|]).
    split; [|split; [|split; [done|split; [done|]]]].
    + intros Hk.
      destruct (receive_session_failure_same_key message s (rnd w) Hr Hk)
        as (K1 & K2 & K3 & K4).
      repeat (split; [assumption|]).
      intros Hne. rewrite K3, (K4 Hne). by apply world_with_same.
    + intros other Hne. by apply world_with_lookup_ne.
    + intros _. split.
      * intros Hk.
        destruct (receive_session_failure_ratcheted message s (rnd w) Hr Hk)
          as (K1 & K2 & K3 & K4).
        cbv zeta. repeat split; assumption.
      * intros Hk.
        destruct (receive_session_failure_same_key message s (rnd w) Hr Hk)
          as (_ & _ & K3 & _).
        split; [exact K3|].
        exact (receive_session_failure_chain message s (rnd w) Hr Hk).
  - rewrite (receive_message_no_certificate w name message Hc) in Hrun.
    injection Hrun as _ Hw'. subst w'. exists s.
    do 12 (split; [by repeat split|]).
    intros [cert Hcert]. discriminate Hcert.
Qed.

(** ** Sending *)

Lemma world_with_world_with w name s r s' r' :
  world_with (world_with w name s r) name s' r' = world_with w name s' r'.
Proof.
  unfold world_with, with_conns. simpl. by rewrite insert_insert_eq.
Qed.

Lemma send_message_cases w name plaintext :
  (certs (self w) !! name = None /\
   send_message name plaintext w = (Raise (no_certificate_error name), w)) \/
  (conns (self w) !! name = None /\
   send_message name plaintext w =
     (Raise TypeError, mkWorld (self w) (snd (generate_eg (rnd w))))) \/
  (exists cert s0 r0,
     certs (self w) !! name = Some cert /\
     sending_start w name cert s0 r0 /\
     send_message name plaintext w =
       commit name w
         (send_session (my_keys (self w)) (gov_public_key (self w)) plaintext s0 r0)).
Proof.
  destruct (certs (self w) !! name) as [cert|] eqn:Hc;
    [|left; split; [done|by apply send_message_no_certificate]].
  right. destruct (conns (self w) !! name) as [s|] eqn:Hs.
  - right. exists cert, s, (rnd w). split; [done|]. split; [by left|].
    by apply send_message_run with cert.
  - destruct (my_keys (self w)) as [mk|] eqn:Hk.
    + right. eexists cert, _, _. split; [done|]. split.
      * right. split; [done|]. exists mk. eauto.
      * rewrite (send_message_fresh w name plaintext cert mk Hc Hs Hk).
        rewrite (send_message_run (world_with w name _ _) name plaintext cert
                   _ Hc (world_with_lookup _ _ _ _)).
        unfold commit. rewrite world_with_world_with. simpl. by rewrite Hk.
    + left. split; [done|]. by apply send_message_fresh_no_keys with cert.
Qed.

Lemma receive_message_cases w name message :
  (certs (self w) !! name = None /\
   receive_message name message w = (Raise (no_certificate_error name), w)) \/
  (conns (self w) !! name = None /\
   receive_message name message w = (Raise TypeError, w)) \/
  (exists cert s0 r0,
     certs (self w) !! name = Some cert /\
     receiving_start w name cert (fst message) s0 r0 /\
     receive_message name message w =
       commit name w (receive_session message s0 r0)).
Proof.
  destruct (certs (self w) !! name) as [cert|] eqn:Hc;
    [|left; split; [done|by apply receive_message_no_certificate]].
  right. destruct (conns (self w) !! name) as [s|] eqn:Hs.
  - right. exists cert, s, (rnd w). split; [done|]. split; [by left|].
    by apply receive_message_run with cert.
  - destruct (my_keys (self w)) as [mk|] eqn:Hk.
    + right. eexists cert, _, _. split; [done|]. split.
      * right. split; [done|]. exists mk. eauto.
      * rewrite (receive_message_fresh w name message cert mk Hc Hs Hk).
        rewrite (receive_message_run (world_with w name _ _) name message cert
                   _ Hc (world_with_lookup _ _ _ _)).
        unfold commit. by rewrite world_with_world_with.
    + left. split; [done|]. by apply receive_message_fresh_no_keys with cert.
Qed.

(** What a successful [send_session] has produced. *)
Lemma send_session_ok mk gov_pk plaintext s r header ciphertext :
  fst (fst (send_session mk gov_pk plaintext s r)) = Ok (header, ciphertext) ->
  exists (keys : KeyPair bytes) (current_key : bytes),
    let s' := snd (fst (send_session mk gov_pk plaintext s r)) in
    let aes_key :=
      hmac_to_aes_key (fst (_ratchet_sending_chain current_key)) "encrypt" in
    mk = Some keys /\
    ciphertext =
      encrypt_with_gcm aes_key (PyStr plaintext) (h_receiver_iv header)
        (Some (str_header header)) /\
    h_c_gov header =
      encrypt_with_gcm
        (hmac_to_aes_key (compute_dh (private keys) gov_pk) gov_encryption_data_str)
        (PyBytes aes_key) (h_iv_gov header) None /\
    h_v_gov header = public keys /\
    sending_chain_key s' = Some (snd (_ratchet_sending_chain current_key)) /\
    h_dh_public_key header = my_dh_public_key s' /\
    h_prev_chain_length header = prev_chain_length s' /\
    message_n s' = h_message_n header + 1 /\
    need_ratchet s' = false /\
    (need_ratchet s = false ->
       sending_chain_key s = Some current_key /\
       h_message_n header = message_n s /\
       my_dh_public_key s' = my_dh_public_key s) /\
    (need_ratchet s = true ->
       h_message_n header = 0 /\
       prev_chain_length s' = message_n s /\
       my_dh_public_key s' = public (fst (generate_eg r)) /\
       my_dh_private_key s' = private (fst (generate_eg r))).
Proof.
  unfold send_session, dh_ratchet_send.
  destruct (need_ratchet s) eqn:Hn.
  - destruct (their_dh_public_key s); simpl; [|discriminate].
    destruct mk as [keys|]; simpl; [|discriminate].
    intros H. injection H as <- <-.
    eexists keys, _. simpl. repeat split; try done. 
  - simpl. destruct (sending_chain_key s) as [ck|]; simpl; [|discriminate].
    destruct mk as [keys|]; simpl; [|discriminate].
    intros H. injection H as <- <-.
    exists keys, ck. simpl. repeat split; try done.
Qed.

(** C7: in every message [send_message] produces, the header's escrow
    ciphertext [c_gov] is the GCM encryption, without associated data, under
    the key derived with the escrow label from DH(sender's identity private
    key, escrow authority's public key) and the IV [iv_gov], of the very AES
    key under which the message's plaintext is encrypted; so when GCM
    decryption inverts encryption, decrypting [c_gov] with the escrow key
    gives back that AES key. *)
Theorem send_message_escrow :
  forall (w w' : World) (name plaintext : string) (header : Header)
         (ciphertext : bytes * bytes),
    send_message name plaintext w = (Ok (header, ciphertext), w') ->
    exists (keys : KeyPair bytes) (current_key : bytes) (s' : Session),
      let aes_key :=
        hmac_to_aes_key (fst (_ratchet_sending_chain current_key)) "encrypt" in
      let gov_key :=
        hmac_to_aes_key (compute_dh (private keys) (gov_public_key (self w)))
          gov_encryption_data_str in
      my_keys (self w) = Some keys /\
      ciphertext =
        encrypt_with_gcm aes_key (PyStr plaintext) (h_receiver_iv header)
          (Some (str_header header)) /\
      h_c_gov header =
        encrypt_with_gcm gov_key (PyBytes aes_key) (h_iv_gov header) None /\
      h_v_gov header = public keys /\
      conns (self w') !! name = Some s' /\
      sending_chain_key s' = Some (snd (_ratchet_sending_chain current_key)) /\
      (forall s, conns (self w) !! name = Some s -> need_ratchet s = false ->
         sending_chain_key s = Some current_key) /\
      (gcm_correct ->
         decrypt_with_gcm gov_key (h_c_gov header) (h_iv_gov header) None =
           Some (PyBytes aes_key)).
Proof.
  intros w w' name plaintext header ciphertext Hrun.
  destruct (send_message_cases w name plaintext)
    as [[_ H]|[[_ H]|(cert & s0 & r0 & Hc & Hstart & H)]];
    rewrite H in Hrun; try discriminate.
  unfold commit in Hrun. injection Hrun as Hres Hw'.
  destruct (send_session_ok _ _ _ _ _ _ _ Hres)
    as (keys & ck & Hk & Hct & Hgov & Hv & Hchain & _ & _ & _ & _ & Hplain & _).
  exists keys, ck, (snd (fst (send_session (my_keys (self w))
                                (gov_public_key (self w)) plaintext s0 r0))).
  simpl. subst w'. repeat split; try assumption.
  - apply world_with_lookup.
  - intros s Hs Hn. destruct Hstart as [[Hs0 _]|[Hs0 _]]; [|congruence].
    assert (s0 = s) by congruence. subst s0. by destruct (Hplain Hn).
  - intros Hgcm. rewrite Hgov. apply Hgcm.
Qed.

(** ** Invariants *)

Lemma new_client_wf ca gov : client_wf (new_client ca gov).
Proof. intros name s Hs. unfold new_client in Hs. simpl in Hs. by rewrite lookup_empty in Hs. Qed.

Lemma world_with_wf w name s r :
  client_wf (self w) ->
  is_Some (certs (self w) !! name) ->
  is_Some (my_keys (self w)) ->
  session_wf s ->
  client_wf (self (world_with w name s r)).
Proof.
  intros Hwf Hc Hk Hs other s' Hlookup.
  destruct (decide (name = other)) as [<-|Hne].
  - rewrite world_with_lookup in Hlookup. injection Hlookup as <-. done.
  - rewrite world_with_lookup_ne in Hlookup by done.
    destruct (Hwf other s' Hlookup) as (? & ? & ?). done.
Qed.

Lemma send_session_wf mk gov_pk plaintext s r :
  session_wf s -> session_wf (snd (fst (send_session mk gov_pk plaintext s r))).
Proof.
  intros Hs. unfold send_session, dh_ratchet_send, session_wf in *.
  destruct (need_ratchet s) eqn:Hn.
  - destruct (Hs eq_refl) as [pk Hpk]. rewrite Hpk. simpl.
    destruct mk; simpl; discriminate.
  - simpl. destruct (sending_chain_key s); simpl; [|congruence].
    destruct mk; simpl; congruence.
Qed.

(** After any [receive_session], successful or not, the peer's ratchet key
    on record is the one of the header. *)
Lemma receive_session_their_key message s r :
  their_dh_public_key (snd (fst (receive_session message s r))) =
    Some (h_dh_public_key (fst message)).
Proof.
  unfold receive_session.
  destruct (decide _) as [Hne|Heq]; simpl.
  - destruct (_ <? _)%Z; simpl; [done|].
    destruct (_ =? _)%Z; simpl; [|done].
    destruct (decrypt_with_gcm _ _ _ _); done.
  - apply dec_stable in Heq.
    destruct (_ <? _)%Z; simpl; [done|].
    destruct (_ =? _)%Z; simpl; [|done].
    destruct (receiving_chain_key s); simpl; [|done].
    destruct (decrypt_with_gcm _ _ _ _); done.
Qed.

Lemma receive_session_wf message s r :
  session_wf (snd (fst (receive_session message s r))).
Proof. intros _. rewrite receive_session_their_key. eauto. Qed.

Lemma sending_start_wf w name cert s0 r0 :
  client_wf (self w) -> sending_start w name cert s0 r0 ->
  is_Some (my_keys (self w)) /\ session_wf s0.
Proof.
  intros Hwf [[Hs _]|[_ (mk & Hk & -> & _)]].
  - destruct (Hwf name s0 Hs) as (_ & ? & ?). done.
  - split; [rewrite Hk; eauto|]. intros Hn. discriminate Hn.
Qed.

Lemma receiving_start_wf w name cert header s0 r0 :
  client_wf (self w) -> receiving_start w name cert header s0 r0 ->
  is_Some (my_keys (self w)) /\ session_wf s0.
Proof.
  intros Hwf [[Hs _]|[_ (mk & Hk & -> & _)]].
  - destruct (Hwf name s0 Hs) as (_ & ? & ?). done.
  - split; [rewrite Hk; eauto|]. intros Hn. discriminate Hn.
Qed.

(** Every call preserves the invariant, whatever its outcome. *)
Lemma step_wf o w : client_wf (self w) -> client_wf (self (step o w)).
Proof.
  intros Hwf. destruct o as [user|certificate signature|name plaintext|name message];
    simpl.
  - unfold generate_certificate. run_monad.
    intros name s Hs. destruct (Hwf name s Hs) as (? & _ & ?). simpl. eauto.
  - unfold receive_certificate. run_monad.
    destruct (verify_with_ecdsa _ _ _); simpl; [|done].
    intros name s Hs. destruct (Hwf name s Hs) as (Hc & ? & ?). simpl.
    split; [|done]. rewrite lookup_insert_is_Some.
    destruct (decide (username certificate = name)); eauto.
  - destruct (send_message_cases w name plaintext)
      as [[_ H]|[[_ H]|(cert & s0 & r0 & Hc & Hstart & H)]]; rewrite H;
      unfold commit; cbn [fst snd self]; try done.
    destruct (sending_start_wf _ _ _ _ _ Hwf Hstart) as [Hk Hs0].
    apply world_with_wf; [done|by rewrite Hc|done|by apply send_session_wf].
  - destruct (receive_message_cases w name message)
      as [[_ H]|[[_ H]|(cert & s0 & r0 & Hc & Hstart & H)]]; rewrite H;
      unfold commit; cbn [fst snd self]; try done.
    destruct (receiving_start_wf _ _ _ _ _ _ Hwf Hstart) as [Hk Hs0].
    apply world_with_wf; [done|by rewrite Hc|done|apply receive_session_wf].
Qed.

Lemma run_wf ops w : client_wf (self w) -> client_wf (self (run ops w)).
Proof.
  revert w. induction ops as [|o ops IH]; intros w Hwf; simpl; [done|].
  apply IH. by apply step_wf.
Qed.

(** Every client reached from a new one by a trace of calls satisfies the
    invariant. *)
Lemma reachable_wf ops ca gov r :
  client_wf (self (run ops (mkWorld (new_client ca gov) r))).
Proof. apply run_wf. simpl. apply new_client_wf. Qed.

(** ** A receive forces a DH ratchet on the next send *)

(** What a successful [receive_session] has done to the session. *)
Lemma receive_session_ok message s r data :
  fst (fst (receive_session message s r)) = Ok data ->
  let s' := snd (fst (receive_session message s r)) in
  need_ratchet s' = true /\
  h_message_n (fst message) = their_message_n s /\
  their_message_n s' = their_message_n s + 1 /\
  message_n s' = message_n s /\
  prev_chain_length s' = prev_chain_length s /\
  sending_chain_key s' = sending_chain_key s /\
  my_dh_private_key s' = my_dh_private_key s /\
  my_dh_public_key s' = my_dh_public_key s.
Proof.
  unfold receive_session.
  destruct (decide _); simpl;
    (destruct (_ <? _)%Z; simpl; [discriminate|]);
    (destruct (Z.eqb_spec (h_message_n message.1) (their_message_n s)); simpl;
       [|discriminate]);
    repeat case_match; simpl; try discriminate; intros _;
    repeat split; try done; lia.
Qed.

Lemma send_session_ratchets keys gov_pk plaintext s r their_pk :
  need_ratchet s = true ->
  their_dh_public_key s = Some their_pk ->
  exists header ciphertext,
    fst (fst (send_session (Some keys) gov_pk plaintext s r)) =
      Ok (header, ciphertext).
Proof.
  intros Hn Hpk. unfold send_session, dh_ratchet_send. rewrite Hn, Hpk. simpl.
  eauto.
Qed.



(** ** The two message counters *)

Lemma send_session_counters mk gov_pk plaintext s r :
  let s' := snd (fst (send_session mk gov_pk plaintext s r)) in
  their_message_n s' = their_message_n s /\
  (need_ratchet s = false -> message_n s <= message_n s' <= message_n s + 1) /\
  (need_ratchet s = true -> 0 <= message_n s' <= 1) /\
  (need_ratchet s = true ->
   raises (fst (fst (send_session mk gov_pk plaintext s r))) \/ message_n s' = 1).
Proof.
  unfold send_session, dh_ratchet_send.
  destruct (need_ratchet s).
  - destruct (their_dh_public_key s); simpl;
      [destruct mk; simpl|]; repeat split; intros; try done; try lia; eauto.
  - simpl. destruct (sending_chain_key s); simpl;
      [destruct mk; simpl|]; repeat split; intros; try done; try lia.
Qed.

Lemma receive_session_counters message s r :
  let s' := snd (fst (receive_session message s r)) in
  their_message_n s <= their_message_n s' <= their_message_n s + 1 /\
  message_n s' = message_n s.
Proof.
  unfold receive_session.
  destruct (decide _); simpl;
    (destruct (_ <? _)%Z; simpl; [lia|]);
    (destruct (Z.eqb_spec (h_message_n message.1) (their_message_n s)); simpl;
       [|lia]);
    repeat case_match; simpl; lia.
Qed.

(** What one call does to a session on record: nothing, unless the call is
    a send to or a receive from that peer, which applies the session-level
    transition. *)
Lemma step_session o w name s :
  conns (self w) !! name = Some s ->
  exists s', conns (self (step o w)) !! name = Some s' /\
    (s' = s \/
     (exists plaintext, o = SendMessage name plaintext /\
        s' = snd (fst (send_session (my_keys (self w)) (gov_public_key (self w))
                         plaintext s (rnd w)))) \/
     (exists message, o = ReceiveMessage name message /\
        s' = snd (fst (receive_session message s (rnd w))))).
Proof.
  intros Hs.
  destruct o as [user|certificate signature|name0 plaintext|name0 message];
    simpl.
  - exists s. split; [|by left]. unfold generate_certificate. run_monad. done.
  - exists s. split; [|by left]. unfold receive_certificate. run_monad.
    by destruct (verify_with_ecdsa _ _ _).
  - destruct (send_message_cases w name0 plaintext)
      as [[_ H]|[[_ H]|(cert & s0 & r0 & Hc & Hstart & H)]]; rewrite H;
      unfold commit; cbn [fst snd self]; try (exists s; split; [done|by left]).
    destruct (decide (name0 = name)) as [->|Hne].
    + destruct Hstart as [[Hs0 ->]|[Hs0 _]]; [|congruence].
      assert (s0 = s) by congruence. subst s0.
      eexists. split; [apply world_with_lookup|]. right. left. eauto.
    + exists s. split; [|by left]. by rewrite world_with_lookup_ne.
  - destruct (receive_message_cases w name0 message)
      as [[_ H]|[[_ H]|(cert & s0 & r0 & Hc & Hstart & H)]]; rewrite H;
      unfold commit; cbn [fst snd self]; try (exists s; split; [done|by left]).
    destruct (decide (name0 = name)) as [->|Hne].
    + destruct Hstart as [[Hs0 ->]|[Hs0 _]]; [|congruence].
      assert (s0 = s) by congruence. subst s0.
      eexists. split; [apply world_with_lookup|]. right. right. eauto.
    + exists s. split; [|by left]. by rewrite world_with_lookup_ne.
Qed.

Lemma step_their_message_n o w name s :
  conns (self w) !! name = Some s ->
  exists s', conns (self (step o w)) !! name = Some s' /\
             their_message_n s <= their_message_n s'.
Proof.
  intros Hs. destruct (step_session o w name s Hs)
    as (s' & Hs' & [->|[(plaintext & _ & ->)|(message & _ & ->)]]);
    eexists; (split; [exact Hs'|]).
  - lia.
  - pose proof (send_session_counters (my_keys (self w)) (gov_public_key (self w))
                  plaintext s (rnd w)) as (-> & _). lia.
  - pose proof (receive_session_counters message s (rnd w)) as (? & _). lia.
Qed.

(** C3, as the code has it: over any trace of calls a session stays on
    record and its [their_message_n] never decreases.  Its [message_n] does
    not decrease in a call either, except in a [send_message] that finds
    [need_ratchet] set: the DH ratchet restarts the count, and when the send
    succeeds [message_n] is 1 afterwards. *)
Theorem session_counters_over_calls :
  forall (ops : list op) (o : op) (w : World) (name : string) (s : Session),
    conns (self w) !! name = Some s ->
    (exists s', conns (self (run ops w)) !! name = Some s' /\
                their_message_n s <= their_message_n s') /\
    (exists s', conns (self (step o w)) !! name = Some s' /\
       their_message_n s <= their_message_n s' /\
       (message_n s <= message_n s' \/
        exists plaintext, o = SendMessage name plaintext /\
          need_ratchet s = true /\
          0 <= message_n s' <= 1 /\
          (forall sent, fst (send_message name plaintext w) = Ok sent ->
             message_n s' = 1))).
Proof.
  intros ops o w name s Hs. split.
  - revert w s Hs. induction ops as [|o' ops IH]; intros w s Hs; simpl.
    + exists s. split; [done|lia].
    + destruct (step_their_message_n o' w name s Hs) as (s1 & Hs1 & Hle).
      destruct (IH _ _ Hs1) as (s' & Hs' & Hle').
      exists s'. split; [done|lia].
  - destruct (step_session o w name s Hs)
      as (s' & Hs' & [->|[(plaintext & -> & ->)|(message & _ & ->)]]);
      eexists; (split; [exact Hs'|]).
    + split; [lia|left; lia].
    + pose proof (send_session_counters (my_keys (self w))
                    (gov_public_key (self w)) plaintext s (rnd w))
        as (Hthem & Hplain & Hratchet & Hone).
      split; [lia|].
      destruct (need_ratchet s) eqn:Hn; [right|left; by apply Hplain].
      exists plaintext. repeat split; try (by apply Hratchet).
      intros sent Hsent.
      destruct (certs (self w) !! name) as [cert|] eqn:Hc.
      * rewrite (send_message_run w name plaintext cert s Hc Hs) in Hsent.
        unfold commit in Hsent. simpl in Hsent.
        destruct (Hone eq_refl) as [Hr|H1]; [|done].
        rewrite Hsent in Hr. done.
      * rewrite (send_message_no_certificate w name plaintext Hc) in Hsent.
        discriminate.
    + pose proof (receive_session_counters message s (rnd w)) as (? & ?).
      split; [lia|left; lia].
Qed.

(** ** The first message of a conversation *)

(** A session created by [_initialize_receiving_session] expects index -1;
    any message with a non-negative index, whatever its ciphertext, is
    rejected as tampered. *)
Lemma fresh_receive_rejects w name message cert mk :
  certs (self w) !! name = Some cert ->
  conns (self w) !! name = None ->
  my_keys (self w) = Some mk ->
  0 <= h_message_n (fst message) ->
  fst (receive_message name message w) = Raise tamper_error.
Proof.
  intros Hc Hs Hk Hn.
  rewrite (receive_message_fresh w name message cert mk Hc Hs Hk).
  rewrite (receive_message_run (world_with w name _ _) name message cert _ Hc
             (world_with_lookup _ _ _ _)).
  unfold commit. cbn [fst].
  apply receive_session_above. simpl. lia.
Qed.

(** The first message sent to a peer has index 0. *)
Lemma first_send_index w w' name plaintext header ciphertext :
  conns (self w) !! name = None ->
  send_message name plaintext w = (Ok (header, ciphertext), w') ->
  h_message_n header = 0.
Proof.
  intros Hs Hrun.
  destruct (send_message_cases w name plaintext)
    as [[_ H]|[[_ H]|(cert & s0 & r0 & Hc & Hstart & H)]];
    rewrite H in Hrun; try discriminate.
  unfold commit in Hrun. injection Hrun as Hres _.
  destruct Hstart as [[Hs0 _]|[_ (mk & Hk & -> & ->)]]; [congruence|].
  destruct (send_session_ok _ _ _ _ _ _ _ Hres)
    as (keys & ck & _ & _ & _ & _ & _ & _ & _ & _ & _ & Hplain & _).
  by destruct (Hplain eq_refl) as (_ & -> & _).
Qed.

(** Hence no first message is ever accepted: whatever the primitive
    library, the first [send_message] of one client and the first
    [receive_message] of its peer do not round-trip. *)
Lemma first_message_never_round_trips wa wa' wb a b plaintext message cert mk :
  conns (self wa) !! b = None ->
  send_message b plaintext wa = (Ok message, wa') ->
  certs (self wb) !! a = Some cert ->
  conns (self wb) !! a = None ->
  my_keys (self wb) = Some mk ->
  fst (receive_message a message wb) = Raise tamper_error.
Proof.
  intros Hsa Hsend Hc Hsb Hk. destruct message as [header ciphertext].
  apply fresh_receive_rejects with cert mk; try done.
  simpl. by rewrite (first_send_index _ _ _ _ _ _ Hsa Hsend).
Qed.

End Props.


(** * Further properties of the client *)

Section More.
Context `{L : Lib} `{R : !Repr}.

(** ** Calls that cannot start *)

(** Without a certificate on file for the peer, [send_message] and
    [receive_message] raise the "No certificate found" error and change
    nothing, whether or not a session with the peer exists. *)
Theorem missing_certificate_rejected :
  forall (w : World) (name plaintext : string) (message : Header * (bytes * bytes)),
    certs (self w) !! name = None ->
    send_message name plaintext w = (Raise (no_certificate_error name), w) /\
    receive_message name message w = (Raise (no_certificate_error name), w).
Proof.
  intros w name plaintext message Hc. split.
  - by apply send_message_no_certificate.
  - by apply receive_message_no_certificate.
Qed.

(** A client that has not generated its certificate cannot open a session:
    the first [send_message] to a certified peer raises [TypeError] after
    having drawn a key pair, and the first [receive_message] raises it
    before drawing anything; neither creates the session. *)
Theorem session_creation_needs_identity_keys :
  forall (w : World) (name plaintext : string) (message : Header * (bytes * bytes))
         (cert : Certificate),
    certs (self w) !! name = Some cert ->
    conns (self w) !! name = None ->
    my_keys (self w) = None ->
    send_message name plaintext w =
      (Raise TypeError, mkWorld (self w) (snd (generate_eg (rnd w)))) /\
    receive_message name message w = (Raise TypeError, w) /\
    conns (self (snd (send_message name plaintext w))) !! name = None /\
    conns (self (snd (receive_message name message w))) !! name = None.
Proof.
  intros w name plaintext message cert Hc Hs Hk.
  rewrite (send_message_fresh_no_keys w name plaintext cert Hc Hs Hk).
  rewrite (receive_message_fresh_no_keys w name message cert Hc Hs Hk).
  repeat split; assumption.
Qed.

(** ** The two remaining session operations *)

(** [_initialize_sending_session] creates the session with a freshly
    generated ratchet pair, the root key DH(identity private key, peer's
    certified key), the sending chain key the first output of HKDF with a
    fresh salt and the label "sending_chain_init", no peer ratchet key and
    no receiving chain, counters 0, -1 and 0 and [need_ratchet] false; it
    draws the key pair first and the salt second. *)
Theorem initialize_sending_session_spec :
  forall (w : World) (name : string) (cert : Certificate) (mk : KeyPair bytes),
    certs (self w) !! name = Some cert ->
    my_keys (self w) = Some mk ->
    let dh_keys := fst (generate_eg (rnd w)) in
    let salt := fst (gen_random_salt (snd (generate_eg (rnd w)))) in
    let shared := compute_dh (private mk) (public_key cert) in
    exists (w' : World) (s : Session),
      _initialize_sending_session name w = (Ok tt, w') /\
      conns (self w') !! name = Some s /\
      my_dh_private_key s = private dh_keys /\
      my_dh_public_key s = public dh_keys /\
      their_dh_public_key s = None /\
      root_key s = shared /\
      sending_chain_key s = Some (fst (hkdf shared salt "sending_chain_init")) /\
      receiving_chain_key s = None /\
      message_n s = 0 /\
      their_message_n s = -1 /\
      prev_chain_length s = 0 /\
      need_ratchet s = false /\
      (forall other, other <> name ->
         conns (self w') !! other = conns (self w) !! other) /\
      certs (self w') = certs (self w) /\
      rnd w' = snd (gen_random_salt (snd (generate_eg (rnd w)))).
Proof.
  intros w name cert mk Hc Hk dh_keys salt shared.
  rewrite (initialize_sending_session_run w name cert mk Hc Hk).
  eexists _, _. split; [reflexivity|].
  split; [apply world_with_lookup|].
  repeat split. intros other Hne. by apply world_with_lookup_ne.
Qed.

(** [_ratchet_dh_receiving_keys] on a session on record never fails: it
    records the header's ratchet key, derives root key and receiving chain
    key by HKDF from DH(local ratchet private key, header's key) with a
    fresh salt and the label "dh_ratchet_receiving", and leaves the sending
    side, the counters and [need_ratchet] as they were. *)
Theorem ratchet_dh_receiving_keys_spec :
  forall (w : World) (name : string) (header : Header) (s : Session),
    conns (self w) !! name = Some s ->
    let salt := fst (gen_random_salt (rnd w)) in
    let keys :=
      hkdf (compute_dh (my_dh_private_key s) (h_dh_public_key header)) salt
           "dh_ratchet_receiving" in
    exists (w' : World) (s' : Session),
      _ratchet_dh_receiving_keys name header w = (Ok tt, w') /\
      conns (self w') !! name = Some s' /\
      their_dh_public_key s' = Some (h_dh_public_key header) /\
      root_key s' = fst keys /\
      receiving_chain_key s' = Some (snd keys) /\
      my_dh_private_key s' = my_dh_private_key s /\
      my_dh_public_key s' = my_dh_public_key s /\
      sending_chain_key s' = sending_chain_key s /\
      message_n s' = message_n s /\
      their_message_n s' = their_message_n s /\
      prev_chain_length s' = prev_chain_length s /\
      need_ratchet s' = need_ratchet s /\
      (forall other, other <> name ->
         conns (self w') !! other = conns (self w) !! other) /\
      certs (self w') = certs (self w) /\
      rnd w' = snd (gen_random_salt (rnd w)).
Proof.
  intros w name header s Hs salt keys.
  rewrite (ratchet_dh_receiving_keys_run w name s header Hs).
  eexists _, _. split; [reflexivity|].
  split; [apply world_with_lookup|].
  repeat split. intros other Hne. by apply world_with_lookup_ne.
Qed.

(** ** Reachable sessions *)

Lemma send_session_inv mk gov_pk plaintext s r :
  session_inv s -> session_inv (snd (fst (send_session mk gov_pk plaintext s r))).
Proof.
  intros (Hn & Hp & Ht & Hr & Hk). unfold send_session, dh_ratchet_send, session_inv.
  destruct (need_ratchet s) eqn:Hneed.
  - destruct (their_dh_public_key s) eqn:Hpk; simpl;
      [destruct mk; simpl|]; rewrite ?Hpk;
      repeat split; try lia; try done; try apply Hk.
  - simpl. destruct (sending_chain_key s); simpl;
      [destruct mk; simpl|]; rewrite ?Hneed;
      repeat split; try lia; try done; try apply Hk.
Qed.

Lemma receive_session_inv message s r :
  session_inv s -> session_inv (snd (fst (receive_session message s r))).
Proof.
  intros (Hn & Hp & Ht & Hr & Hk). unfold receive_session, session_inv.
  destruct (decide _) as [Hne|Heq]; simpl.
  - destruct (_ <? _)%Z; simpl; [by eauto 10|].
    destruct (Z.eqb_spec (h_message_n message.1) (their_message_n s)); simpl.
    + destruct (decrypt_with_gcm _ _ _ _); simpl; repeat split; eauto; lia.
    + repeat split; eauto.
  - destruct (_ <? _)%Z; simpl; [done|].
    destruct (Z.eqb_spec (h_message_n message.1) (their_message_n s)); simpl;
      [|done].
    destruct (receiving_chain_key s) eqn:Hck; simpl; [|by rewrite Hck].
    destruct (decrypt_with_gcm _ _ _ _); simpl; repeat split; eauto; try lia;
      intros; apply Hk; eauto.
Qed.

Lemma sending_start_inv w name cert s0 r0 :
  (forall s, conns (self w) !! name = Some s -> session_inv s) ->
  sending_start w name cert s0 r0 -> session_inv s0.
Proof.
  intros Hinv [[Hs _]|[_ (mk & _ & -> & _)]]; [by apply Hinv|].
  unfold session_inv. simpl. repeat split; try lia; try done;
    intros [? ?]; discriminate.
Qed.

Lemma receiving_start_inv w name cert header s0 r0 :
  (forall s, conns (self w) !! name = Some s -> session_inv s) ->
  receiving_start w name cert header s0 r0 -> session_inv s0.
Proof.
  intros Hinv [[Hs _]|[_ (mk & _ & -> & _)]]; [by apply Hinv|].
  unfold session_inv. simpl. repeat split; try lia; try done; eauto.
Qed.

Lemma step_session_inv o w :
  (forall name s, conns (self w) !! name = Some s -> session_inv s) ->
  forall name s, conns (self (step o w)) !! name = Some s -> session_inv s.
Proof.
  intros Hinv name s.
  destruct o as [user|certificate signature|name0 plaintext|name0 message];
    simpl.
  - unfold generate_certificate, bind, draw, modify_self, ret. simpl. apply Hinv.
  - unfold receive_certificate, bind, get_self, modify_self, raise. simpl.
    destruct (verify_with_ecdsa _ _ _); simpl; apply Hinv.
  - destruct (send_message_cases w name0 plaintext)
      as [[_ H]|[[_ H]|(cert & s0 & r0 & Hc & Hstart & H)]]; rewrite H;
      unfold commit; cbn [fst snd self]; try apply Hinv.
    destruct (decide (name0 = name)) as [->|Hne].
    + rewrite world_with_lookup. intros [= <-].
      apply send_session_inv.
      apply (sending_start_inv w name cert s0 r0); [apply Hinv|done].
    + rewrite world_with_lookup_ne by done. apply Hinv.
  - destruct (receive_message_cases w name0 message)
      as [[_ H]|[[_ H]|(cert & s0 & r0 & Hc & Hstart & H)]]; rewrite H;
      unfold commit; cbn [fst snd self]; try apply Hinv.
    destruct (decide (name0 = name)) as [->|Hne].
    + rewrite world_with_lookup. intros [= <-].
      apply receive_session_inv.
      apply (receiving_start_inv w name cert message.1 s0 r0); [apply Hinv|done].
    + rewrite world_with_lookup_ne by done. apply Hinv.
Qed.

Lemma run_session_inv ops w :
  (forall name s, conns (self w) !! name = Some s -> session_inv s) ->
  forall name s, conns (self (run ops w)) !! name = Some s -> session_inv s.
Proof.
  revert w. induction ops as [|o ops IH]; intros w Hinv; simpl; [done|].
  apply IH. by apply step_session_inv.
Qed.

(** Every session of a client reached from a new one by any trace of calls,
    failed calls included: the peer's certificate is on file, the client has
    identity keys, the sending counters are not negative, the expected
    counter is at least -1 and at least 0 when [need_ratchet] is set, a
    ratchet key of the peer is on record whenever [need_ratchet] is set, and
    the receiving chain exists exactly when such a key is on record. *)
Theorem reachable_session_invariant :
  forall (ops : list op) (ca gov : bytes) (r : entropy) (name : string)
         (s : Session),
    let c := self (run ops (mkWorld (new_client ca gov) r)) in
    conns c !! name = Some s ->
    is_Some (certs c !! name) /\
    is_Some (my_keys c) /\
    0 <= message_n s /\
    0 <= prev_chain_length s /\
    -1 <= their_message_n s /\
    (need_ratchet s = true ->
       0 <= their_message_n s /\ is_Some (their_dh_public_key s)) /\
    (is_Some (their_dh_public_key s) <-> is_Some (receiving_chain_key s)).
Proof.
  intros ops ca gov r name s c Hs.
  destruct (run_wf ops (mkWorld (new_client ca gov) r) (new_client_wf ca gov)
              name s Hs) as (Hc & Hk & Hwf).
  assert (Hinv : session_inv s).
  { apply (run_session_inv ops (mkWorld (new_client ca gov) r)) with name;
      [|exact Hs].
    intros name' s' Hs'. simpl in Hs'. by rewrite lookup_empty in Hs'. }
  destruct Hinv as (Hn & Hp & Ht & Hr & Hiff).
  repeat split; try assumption; try (by apply Hr); try (by apply Hiff).
  by apply Hwf.
Qed.

(** ** What a call leaves alone *)

(** The parts of the client that [send_message] and [receive_message] never
    write. *)
Lemma commit_frame {A} (w : World) name (outcome : result A * Session * entropy) :
  let c' := self (snd (commit name w outcome)) in
  certs c' = certs (self w) /\
  my_keys c' = my_keys (self w) /\
  my_certificate c' = my_certificate (self w) /\
  ca_public_key c' = ca_public_key (self w) /\
  gov_public_key c' = gov_public_key (self w) /\
  forall other, other <> name -> conns c' !! other = conns (self w) !! other.
Proof.
  unfold commit. cbn [snd]. repeat split.
  intros other Hne. by apply world_with_lookup_ne.
Qed.

(** A [send_message] to, or a [receive_message] from, one peer leaves the
    sessions of all other peers, the certificate store, the client's own
    keys and certificate and the two authority keys as they were, whatever
    its outcome. *)
Theorem messaging_frame :
  forall (w : World) (name other plaintext : string)
         (message : Header * (bytes * bytes)),
    other <> name ->
    let sent := self (snd (send_message name plaintext w)) in
    let received := self (snd (receive_message name message w)) in
    conns sent !! other = conns (self w) !! other /\
    conns received !! other = conns (self w) !! other /\
    certs sent = certs (self w) /\
    certs received = certs (self w) /\
    my_keys sent = my_keys (self w) /\
    my_keys received = my_keys (self w) /\
    my_certificate sent = my_certificate (self w) /\
    my_certificate received = my_certificate (self w) /\
    (ca_public_key sent, gov_public_key sent) =
      (ca_public_key (self w), gov_public_key (self w)) /\
    (ca_public_key received, gov_public_key received) =
      (ca_public_key (self w), gov_public_key (self w)).
Proof.
  intros w name other plaintext message Hne sent received.
  assert (Hsend :
    certs sent = certs (self w) /\ my_keys sent = my_keys (self w) /\
    my_certificate sent = my_certificate (self w) /\
    ca_public_key sent = ca_public_key (self w) /\
    gov_public_key sent = gov_public_key (self w) /\
    conns sent !! other = conns (self w) !! other).
  { subst sent.
    destruct (send_message_cases w name plaintext)
      as [[_ H]|[[_ H]|(cert & s0 & r0 & _ & _ & H)]]; rewrite H;
      try (cbn [snd self]; by repeat split).
    destruct (commit_frame w name
                (send_session (my_keys (self w)) (gov_public_key (self w))
                   plaintext s0 r0)) as (? & ? & ? & ? & ? & Hother).
    repeat split; try assumption. apply Hother. done. }
  assert (Hrecv :
    certs received = certs (self w) /\ my_keys received = my_keys (self w) /\
    my_certificate received = my_certificate (self w) /\
    ca_public_key received = ca_public_key (self w) /\
    gov_public_key received = gov_public_key (self w) /\
    conns received !! other = conns (self w) !! other).
  { subst received.
    destruct (receive_message_cases w name message)
      as [[_ H]|[[_ H]|(cert & s0 & r0 & _ & _ & H)]]; rewrite H;
      try (cbn [snd self]; by repeat split).
    destruct (commit_frame w name (receive_session message s0 r0))
      as (? & ? & ? & ? & ? & Hother).
    repeat split; try assumption. apply Hother. done. }
  destruct Hsend as (S1 & S2 & S3 & S4 & S5 & S6).
  destruct Hrecv as (R1 & R2 & R3 & R4 & R5 & R6).
  repeat split; try assumption; congruence.
Qed.

(** ** Sending within one chain *)

(** A send that finds [need_ratchet] clear and a sending chain key, on a
    client with identity keys, succeeds. *)
Lemma send_session_plain keys gov_pk plaintext s r current_key :
  need_ratchet s = false ->
  sending_chain_key s = Some current_key ->
  exists header ciphertext,
    fst (fst (send_session (Some keys) gov_pk plaintext s r)) =
      Ok (header, ciphertext).
Proof.
  intros Hn Hck. unfold send_session. rewrite Hn. simpl. rewrite Hck. simpl.
  eauto.
Qed.

(** After a successful [send_message], the next [send_message] to the same
    peer succeeds as well and stays in the same chain: its header carries
    the same DH public key, the same [prev_chain_length] and sender key, and
    the next message number, and its plaintext is encrypted under the key
    derived from the chain key the first send left in the session. *)
Theorem consecutive_sends_share_chain :
  forall (w w1 : World) (name plaintext1 plaintext2 : string) (header1 : Header)
         (ciphertext1 : bytes * bytes),
    send_message name plaintext1 w = (Ok (header1, ciphertext1), w1) ->
    exists (header2 : Header) (ciphertext2 : bytes * bytes) (w2 : World)
           (s1 : Session) (current_key : bytes),
      send_message name plaintext2 w1 = (Ok (header2, ciphertext2), w2) /\
      conns (self w1) !! name = Some s1 /\
      sending_chain_key s1 = Some current_key /\
      h_dh_public_key header2 = h_dh_public_key header1 /\
      h_prev_chain_length header2 = h_prev_chain_length header1 /\
      h_v_gov header2 = h_v_gov header1 /\
      h_message_n header2 = h_message_n header1 + 1 /\
      ciphertext2 =
        encrypt_with_gcm
          (hmac_to_aes_key (fst (_ratchet_sending_chain current_key)) "encrypt")
          (PyStr plaintext2) (h_receiver_iv header2)
          (Some (str_header header2)).
Proof.
  intros w w1 name plaintext1 plaintext2 header1 ciphertext1 Hrun.
  destruct (send_message_cases w name plaintext1)
    as [[_ H]|[[_ H]|(cert & s0 & r0 & Hc & Hstart & H)]];
    rewrite H in Hrun; try discriminate.
  unfold commit in Hrun. injection Hrun as Hres Hw1.
  destruct (send_session_ok _ _ _ _ _ _ _ Hres)
    as (keys & ck & Hk & _ & _ & Hv & Hchain & Hdh & Hprev & Hcount & Hclear & _).
  set (s1 := snd (fst (send_session (my_keys (self w)) (gov_public_key (self w))
                         plaintext1 s0 r0))) in *.
  assert (Hs1 : conns (self w1) !! name = Some s1)
    by (subst w1; apply world_with_lookup).
  assert (Hc1 : certs (self w1) !! name = Some cert) by (by subst w1).
  assert (Hk1 : my_keys (self w1) = Some keys) by (by subst w1).
  rewrite (send_message_run w1 name plaintext2 cert s1 Hc1 Hs1), Hk1.
  destruct (send_session_plain keys (gov_public_key (self w1)) plaintext2 s1
              (rnd w1) _ Hclear Hchain) as (header2 & ciphertext2 & Hsend).
  destruct (send_session_ok _ _ _ _ _ _ _ Hsend)
    as (keys' & ck' & Hk' & Hct' & _ & Hv' & _ & Hdh' & Hprev' & Hcount' & _
        & Hplain & _).
  destruct (Hplain Hclear) as (Hck' & Hidx & Hpub).
  set (sent := send_session (Some keys) (gov_public_key (self w1)) plaintext2
                 s1 (rnd w1)) in *.
  exists header2, ciphertext2, (world_with w1 name (snd (fst sent)) (snd sent)),
    s1, (snd (_ratchet_sending_chain ck)).
  split; [unfold commit; by rewrite Hsend|].
  split; [done|]. split; [done|].
  assert (ck' = snd (_ratchet_sending_chain ck)) by congruence. subst ck'.
  assert (keys' = keys) by congruence. subst keys'.
  assert (Hprev1 : prev_chain_length (snd (fst sent)) = prev_chain_length s1).
  { subst sent. unfold send_session. rewrite Hclear. simpl. rewrite Hchain.
    reflexivity. }
  repeat split; try congruence; try lia.
Qed.

(** ** Which messages are accepted *)

Lemma receive_session_accepts message s r data :
  fst (fst (receive_session message s r)) = Ok data <->
  h_message_n (fst message) = their_message_n s /\
  exists key, receiving_aes_key (fst message) s r = Some key /\
    decrypt_with_gcm key (snd message) (h_receiver_iv (fst message))
      (Some (str_header (fst message))) = Some data.
Proof.
  unfold receive_session, receiving_aes_key.
  destruct (decide _); simpl;
    (destruct (Z.ltb_spec (h_message_n message.1) (their_message_n s)); simpl;
       [split; [discriminate|intros [? _]; lia]|]);
    (destruct (Z.eqb_spec (h_message_n message.1) (their_message_n s)); simpl;
       [|split; [discriminate|intros [? _]; lia]]).
  - destruct (decrypt_with_gcm _ _ _ _) as [data'|] eqn:Hd; simpl; split.
    + intros Hok. split; [done|]. eexists. split; [reflexivity|]. congruence.
    + intros (_ & key & Hkey & Hdec). injection Hkey as <-. congruence.
    + discriminate.
    + intros (_ & key & Hkey & Hdec). injection Hkey as <-. congruence.
  - destruct (receiving_chain_key s) as [ck|]; simpl.
    + destruct (decrypt_with_gcm _ _ _ _) as [data'|] eqn:Hd; simpl; split.
      * intros Hok. split; [done|]. eexists. split; [reflexivity|]. congruence.
      * intros (_ & key & Hkey & Hdec). injection Hkey as <-. congruence.
      * discriminate.
      * intros (_ & key & Hkey & Hdec). injection Hkey as <-. congruence.
    + split; [discriminate|]. intros (_ & key & Hkey & _). discriminate.
Qed.

(** On a session on record, [receive_message] returns a plaintext exactly
    when the header's index is the expected one and the ciphertext
    authenticates, with the header's IV and [str(header)] as associated
    data, under the AES key derived with the label "decrypt" from the
    message key of the receiving chain (taken after the DH ratchet, if the
    header's key is new); what it returns is what [decrypt_with_gcm]
    returns. *)
Theorem receive_message_accepts :
  forall (w : World) (name : string) (header : Header)
         (ciphertext : bytes * bytes) (cert : Certificate) (s : Session)
         (data : pydata bytes),
    certs (self w) !! name = Some cert ->
    conns (self w) !! name = Some s ->
    (fst (receive_message name (header, ciphertext) w) = Ok data <->
     h_message_n header = their_message_n s /\
     exists key, receiving_aes_key header s (rnd w) = Some key /\
       decrypt_with_gcm key ciphertext (h_receiver_iv header)
         (Some (str_header header)) = Some data).
Proof.
  intros w name header ciphertext cert s data Hc Hs.
  rewrite (receive_message_run w name _ cert s Hc Hs). unfold commit. cbn [fst].
  apply (receive_session_accepts (header, ciphertext)).
Qed.

(** A message with the expected index and a known ratchet key whose
    ciphertext does not authenticate is rejected with the tamper error, the
    expected counter and [need_ratchet] stay as they were, but the receiving
    chain has moved one step: the chain key the message would have used is
    gone. *)
Theorem unauthenticated_message_advances_chain :
  forall (w : World) (name : string) (header : Header)
         (ciphertext : bytes * bytes) (cert : Certificate) (s : Session)
         (current_key : bytes),
    certs (self w) !! name = Some cert ->
    conns (self w) !! name = Some s ->
    their_dh_public_key s = Some (h_dh_public_key header) ->
    receiving_chain_key s = Some current_key ->
    h_message_n header = their_message_n s ->
    decrypt_with_gcm
      (hmac_to_aes_key (fst (_ratchet_receiving_chain current_key)) "decrypt")
      ciphertext (h_receiver_iv header) (Some (str_header header)) = None ->
    receive_message name (header, ciphertext) w =
      (Raise tamper_error,
       world_with w name
         (set_receiving_chain_key
            (Some (snd (_ratchet_receiving_chain current_key))) s)
         (rnd w)).
Proof.
  intros w name header ciphertext cert s ck Hc Hs Hkey Hck Hidx Hdec.
  rewrite (receive_message_run w name _ cert s Hc Hs).
  unfold commit, receive_session. cbn [fst snd].
  destruct (decide _) as [Hne|_]; [by rewrite Hkey in Hne|].
  destruct (Z.ltb_spec (h_message_n header) (their_message_n s)); [lia|].
  destruct (Z.eqb_spec (h_message_n header) (their_message_n s)); [|lia].
  rewrite Hck. cbn [fst snd]. by rewrite Hdec.
Qed.

(** ** When a send can succeed *)

Lemma send_session_keeps_chain mk gov_pk plaintext s r :
  is_Some (sending_chain_key s) ->
  is_Some (sending_chain_key (snd (fst (send_session mk gov_pk plaintext s r)))).
Proof.
  intros [ck Hck]. unfold send_session, dh_ratchet_send.
  destruct (need_ratchet s).
  - destruct (their_dh_public_key s); simpl; [destruct mk; simpl|];
      rewrite ?Hck; eauto.
  - simpl. rewrite Hck. simpl. destruct mk; simpl; eauto.
Qed.

Lemma receive_session_sending_chain message s r :
  sending_chain_key (snd (fst (receive_session message s r))) =
    sending_chain_key s.
Proof.
  unfold receive_session.
  destruct (decide _); simpl;
    (destruct (_ <? _)%Z; simpl; [done|]);
    (destruct (_ =? _)%Z; simpl; [|done]);
    repeat case_match; done.
Qed.

Lemma run_keeps_sending_chain ops w name s :
  conns (self w) !! name = Some s ->
  is_Some (sending_chain_key s) ->
  exists s', conns (self (run ops w)) !! name = Some s' /\
             is_Some (sending_chain_key s').
Proof.
  revert w s. induction ops as [|o ops IH]; intros w s Hs Hck; simpl; [eauto|].
  destruct (step_session o w name s Hs)
    as (s1 & Hs1 & [->|[(plaintext & _ & ->)|(message & _ & ->)]]);
    apply (IH _ _ Hs1).
  - done.
  - by apply send_session_keeps_chain.
  - by rewrite receive_session_sending_chain.
Qed.

(** On a reachable client, a session that has a sending chain key keeps
    being able to send: after any further trace of calls, successful or
    not, [send_message] to that peer succeeds. *)
Theorem send_stays_available :
  forall (ops : list op) (w : World) (name plaintext : string) (s : Session),
    client_wf (self w) ->
    conns (self w) !! name = Some s ->
    is_Some (sending_chain_key s) ->
    exists (header : Header) (ciphertext : bytes * bytes),
      fst (send_message name plaintext (run ops w)) = Ok (header, ciphertext).
Proof.
  intros ops w name plaintext s Hwf Hs Hck.
  destruct (run_keeps_sending_chain ops w name s Hs Hck) as (s' & Hs' & [ck Hck']).
  pose proof (run_wf ops w Hwf) as Hwf'.
  destruct (Hwf' name s' Hs') as ([cert Hc] & [keys Hk] & Hswf).
  rewrite (send_message_run (run ops w) name plaintext cert s' Hc Hs'), Hk.
  unfold commit. cbn [fst].
  destruct (need_ratchet s') eqn:Hn.
  - destruct (Hswf Hn) as [their_pk Hpk].
    apply (send_session_ratchets keys _ plaintext s' _ their_pk Hn Hpk).
  - apply (send_session_plain keys _ plaintext s' _ ck Hn Hck').
Qed.

(** A session created by [receive_message] has no sending chain key.  If
    that first [receive_message] fails, as it does for every message with a
    non-negative index, the session stays on record and [send_message] to
    that peer raises [TypeError]: the hash ratchet is applied to [None]. *)
Theorem receiving_side_session_cannot_send :
  forall (w w1 : World) (name plaintext : string)
         (message : Header * (bytes * bytes)) (cert : Certificate)
         (mk : KeyPair bytes) (e : exn),
    certs (self w) !! name = Some cert ->
    conns (self w) !! name = None ->
    my_keys (self w) = Some mk ->
    receive_message name message w = (Raise e, w1) ->
    is_Some (conns (self w1) !! name) /\
    fst (send_message name plaintext w1) = Raise TypeError.
Proof.
  intros w w1 name plaintext message cert mk e Hc Hs Hk Hrun.
  rewrite (receive_message_fresh w name message cert mk Hc Hs Hk) in Hrun.
  assert (Hn0 : need_ratchet (fst (init_receiving mk cert (fst message) (rnd w)))
                = false) by reflexivity.
  assert (Hck0 : sending_chain_key
                   (fst (init_receiving mk cert (fst message) (rnd w))) = None)
    by reflexivity.
  set (s0 := fst (init_receiving mk cert (fst message) (rnd w))) in *.
  set (r0 := snd (init_receiving mk cert (fst message) (rnd w))) in *.
  rewrite (receive_message_run (world_with w name s0 r0) name message cert s0 Hc
             (world_with_lookup _ _ _ _)) in Hrun.
  unfold commit in Hrun. rewrite world_with_world_with in Hrun.
  injection Hrun as Hres Hw1.
  assert (Hr : raises (fst (fst (receive_session message s0 r0))))
    by (by rewrite Hres).
  destruct (receive_session_failure_fields message s0 r0 Hr)
    as (_ & Hneed & _ & _ & Hck & _).
  set (s1 := snd (fst (receive_session message s0 r0))) in *.
  assert (Hs1 : conns (self w1) !! name = Some s1)
    by (subst w1; apply world_with_lookup).
  assert (Hc1 : certs (self w1) !! name = Some cert) by (by subst w1).
  split; [rewrite Hs1; eauto|].
  rewrite (send_message_run w1 name plaintext cert s1 Hc1 Hs1).
  rewrite Hn0 in Hneed. rewrite Hck0 in Hck.
  unfold commit, send_session. cbn [fst].
  rewrite Hneed. cbn [fst snd]. by rewrite Hck.
Qed.

(** ** What changes the keys of a session *)

Lemma send_session_keys mk gov_pk plaintext s r :
  let s' := snd (fst (send_session mk gov_pk plaintext s r)) in
  their_dh_public_key s' = their_dh_public_key s /\
  receiving_chain_key s' = receiving_chain_key s /\
  (need_ratchet s = false ->
     root_key s' = root_key s /\
     my_dh_private_key s' = my_dh_private_key s /\
     my_dh_public_key s' = my_dh_public_key s).
Proof.
  unfold send_session, dh_ratchet_send.
  destruct (need_ratchet s).
  - destruct (their_dh_public_key s) eqn:Hpk; simpl; [destruct mk; simpl|];
      rewrite ?Hpk; repeat split; done.
  - simpl. destruct (sending_chain_key s); simpl; [destruct mk; simpl|];
      repeat split; done.
Qed.

Lemma receive_session_keys message s r :
  let s' := snd (fst (receive_session message s r)) in
  my_dh_private_key s' = my_dh_private_key s /\
  my_dh_public_key s' = my_dh_public_key s /\
  (their_dh_public_key s = Some (h_dh_public_key (fst message)) ->
     root_key s' = root_key s).
Proof.
  unfold receive_session.
  destruct (decide _) as [Hne|_]; simpl;
    (destruct (_ <? _)%Z; simpl; [by repeat split; try done; intros Hk; rewrite Hk in Hne|]);
    (destruct (_ =? _)%Z; simpl;
       [|by repeat split; try done; intros Hk; rewrite Hk in Hne]);
    repeat case_match; simpl; repeat split; try done;
    intros Hk; by rewrite Hk in Hne.
Qed.

(** In a single call, the root key of a session on record changes only in
    a DH ratchet: in a [send_message] to that peer that finds [need_ratchet]
    set, or in a [receive_message] from that peer whose header carries a
    ratchet key other than the one on record.  The local ratchet pair
    changes only in the former, and the peer's ratchet key on record only in
    a [receive_message] from that peer. *)
Theorem session_keys_change_only_by_ratchet :
  forall (o : op) (w : World) (name : string) (s : Session),
    conns (self w) !! name = Some s ->
    exists s', conns (self (step o w)) !! name = Some s' /\
      (root_key s' = root_key s \/
       (exists plaintext, o = SendMessage name plaintext /\ need_ratchet s = true) \/
       (exists message, o = ReceiveMessage name message /\
          their_dh_public_key s <> Some (h_dh_public_key (fst message)))) /\
      ((my_dh_private_key s', my_dh_public_key s') =
         (my_dh_private_key s, my_dh_public_key s) \/
       (exists plaintext, o = SendMessage name plaintext /\ need_ratchet s = true)) /\
      (their_dh_public_key s' = their_dh_public_key s \/
       (exists message, o = ReceiveMessage name message /\
          their_dh_public_key s' = Some (h_dh_public_key (fst message)))).
Proof.
  intros o w name s Hs.
  destruct (step_session o w name s Hs)
    as (s' & Hs' & [->|[(plaintext & -> & ->)|(message & -> & ->)]]);
    eexists; (split; [exact Hs'|]).
  - repeat split; by left.
  - pose proof (send_session_keys (my_keys (self w)) (gov_public_key (self w))
                  plaintext s (rnd w)) as (Hthem & _ & Hplain).
    destruct (need_ratchet s) eqn:Hn.
    + split; [right; left; eauto|]. split; [right; eauto|]. by left.
    + destruct (Hplain eq_refl) as (-> & -> & ->).
      split; [by left|]. split; by left.
  - pose proof (receive_session_keys message s (rnd w)) as (-> & -> & Hroot).
    split; [|split; [by left|right; exists message; split;
                      [done|apply receive_session_their_key]]].
    destruct (decide (their_dh_public_key s = Some (h_dh_public_key (fst message))))
      as [Heq|Hne]; [left; by apply Hroot|right; right; eauto].
Qed.

(** [receive_message] records the DH public key of the header before it
    checks anything: on a session on record, whatever the outcome of the
    call (replay error, tamper error or success), the peer's ratchet key on
    record afterwards is the one the header carried. *)
Theorem receive_records_header_key :
  forall (w : World) (name : string) (message : Header * (bytes * bytes))
         (cert : Certificate) (s : Session),
    certs (self w) !! name = Some cert ->
    conns (self w) !! name = Some s ->
    exists s', conns (self (snd (receive_message name message w))) !! name = Some s' /\
               their_dh_public_key s' = Some (h_dh_public_key (fst message)).
Proof.
  intros w name message cert s Hc Hs.
  rewrite (receive_message_run w name message cert s Hc Hs). unfold commit.
  cbn [snd]. eexists. split; [apply world_with_lookup|].
  apply receive_session_their_key.
Qed.

(** ** The certificate store and the client's identity over a trace *)

Lemma step_identity o w :
  let c' := self (step o w) in
  ca_public_key c' = ca_public_key (self w) /\
  gov_public_key c' = gov_public_key (self w) /\
  (forall name, is_Some (certs (self w) !! name) -> is_Some (certs c' !! name)) /\
  (is_generate o = false ->
     my_keys c' = my_keys (self w) /\
     my_certificate c' = my_certificate (self w)) /\
  (identity_wf (self w) -> identity_wf c').
Proof.
  destruct o as [user|certificate signature|name plaintext|name message];
    cbn [step is_generate].
  - unfold generate_certificate, bind, draw, modify_self, ret. cbn.
    repeat split; try done.
  - unfold receive_certificate, bind, get_self, modify_self, raise. cbn.
    destruct (verify_with_ecdsa _ _ _); cbn; repeat split; try done.
    intros name Hsome. rewrite lookup_insert_is_Some.
    destruct (decide (username certificate = name)); eauto.
  - destruct (send_message_cases w name plaintext)
      as [[_ H]|[[_ H]|(cert & s0 & r0 & _ & _ & H)]]; rewrite H;
      unfold commit; cbn [snd self]; by repeat split.
  - destruct (receive_message_cases w name message)
      as [[_ H]|[[_ H]|(cert & s0 & r0 & _ & _ & H)]]; rewrite H;
      unfold commit; cbn [snd self]; by repeat split.
Qed.

Lemma run_identity_wf ops w :
  identity_wf (self w) -> identity_wf (self (run ops w)).
Proof.
  revert w. induction ops as [|o ops IH]; intros w Hwf; simpl; [done|].
  apply IH. by apply (step_identity o w).
Qed.

(** Over any trace of calls the two authority keys never change and no
    certificate on file is ever removed; and over a trace without
    [generate_certificate] the client's identity keys and own certificate
    stay the same, so that every message it sends is escrowed under the same
    key. *)
Theorem identity_and_store_over_calls :
  forall (ops : list op) (w : World),
    let c' := self (run ops w) in
    ca_public_key c' = ca_public_key (self w) /\
    gov_public_key c' = gov_public_key (self w) /\
    (forall name, is_Some (certs (self w) !! name) -> is_Some (certs c' !! name)) /\
    (forallb (fun o => negb (is_generate o)) ops = true ->
       my_keys c' = my_keys (self w) /\
       my_certificate c' = my_certificate (self w)).
Proof.
  intros ops. induction ops as [|o ops IH]; intros w; simpl; [by repeat split|].
  destruct (step_identity o w) as (Hca & Hgov & Hcerts & Hkeys & _).
  destruct (IH (step o w)) as (Hca' & Hgov' & Hcerts' & Hkeys').
  split; [congruence|]. split; [congruence|]. split.
  - intros name Hsome. by apply Hcerts', Hcerts.
  - intros Hall. apply andb_prop in Hall as [Ho Hrest].
    apply negb_true_iff in Ho.
    destruct (Hkeys Ho) as [<- <-]. by apply Hkeys'.
Qed.

(** On a client reached from a new one, every message [send_message]
    produces carries in [v_gov] the public key of the client's current
    certificate, the one [generate_certificate] last returned. *)
Theorem header_carries_certified_key :
  forall (ops : list op) (ca gov : bytes) (r : entropy) (w' : World)
         (name plaintext : string) (header : Header) (ciphertext : bytes * bytes),
    let w := run ops (mkWorld (new_client ca gov) r) in
    send_message name plaintext w = (Ok (header, ciphertext), w') ->
    exists certificate : Certificate,
      my_certificate (self w) = Some certificate /\
      my_certificate (self w') = Some certificate /\
      h_v_gov header = public_key certificate.
Proof.
  intros ops ca gov r w' name plaintext header ciphertext w Hrun.
  assert (Hid : identity_wf (self w)) by (apply run_identity_wf; exact I).
  pose proof (step_identity (SendMessage name plaintext) w) as (_ & _ & _ & Hkeep & _).
  destruct (Hkeep eq_refl) as [_ Hcert]. cbn [step] in Hcert.
  rewrite Hrun in Hcert. cbn [snd] in Hcert.
  destruct (send_message_cases w name plaintext)
    as [[_ H]|[[_ H]|(cert & s0 & r0 & Hc & Hstart & H)]];
    rewrite H in Hrun; try discriminate.
  unfold commit in Hrun. injection Hrun as Hres _.
  destruct (send_session_ok _ _ _ _ _ _ _ Hres)
    as (keys & ck & Hk & _ & _ & Hv & _).
  unfold identity_wf in Hid. rewrite Hk in Hid.
  destruct (my_certificate (self w)) as [certificate|] eqn:Hm; [|done].
  exists certificate. repeat split; congruence.
Qed.

(** ** Counting accepted messages *)

Lemma step_accepted o w name s :
  conns (self w) !! name = Some s ->
  exists s', conns (self (step o w)) !! name = Some s' /\
    their_message_n s' = their_message_n s + receives_accepted name [o] w.
Proof.
  intros Hs. cbn [receives_accepted].
  destruct o as [user|certificate signature|name0 plaintext|name0 message].
  - destruct (step_session (GenerateCertificate user) w name s Hs)
      as (s' & Hs' & [->|[(? & [=] & _)|(? & [=] & _)]]).
    exists s. split; [done|lia].
  - destruct (step_session (ReceiveCertificate certificate signature) w name s Hs)
      as (s' & Hs' & [->|[(? & [=] & _)|(? & [=] & _)]]).
    exists s. split; [done|lia].
  - destruct (step_session (SendMessage name0 plaintext) w name s Hs)
      as (s' & Hs' & [->|[(pt & [= -> ->] & ->)|(? & [=] & _)]]).
    + exists s. split; [done|lia].
    + eexists. split; [exact Hs'|].
      pose proof (send_session_counters (my_keys (self w)) (gov_public_key (self w))
                    pt s (rnd w)) as (-> & _). lia.
  - destruct (decide (name0 = name)) as [->|Hne].
    + destruct (certs (self w) !! name) as [cert|] eqn:Hc.
      * cbn [step]. rewrite (receive_message_run w name message cert s Hc Hs).
        unfold commit. cbn [fst snd]. eexists. split; [apply world_with_lookup|].
        destruct (fst (fst (receive_session message s (rnd w)))) as [data|e] eqn:E.
        -- pose proof (receive_session_ok _ _ _ _ E) as (_ & _ & -> & _). lia.
        -- assert (Hr : raises (fst (fst (receive_session message s (rnd w)))))
             by (by rewrite E).
           destruct (receive_session_failure_fields message s (rnd w) Hr)
             as (-> & _). lia.
      * cbn [step]. rewrite (receive_message_no_certificate w name message Hc).
        cbn [fst snd]. exists s. split; [done|lia].
    + destruct (step_session (ReceiveMessage name0 message) w name s Hs)
        as (s' & Hs' & [->|[(? & [=] & _)|(m & [= -> ->] & _)]]); [|done].
      exists s. split; [done|lia].
Qed.

(** Over any trace of calls, the expected counter of a session on record
    grows by exactly the number of [receive_message] calls from that peer
    that returned a plaintext: failed calls and calls for other peers do not
    move it. *)
Theorem their_message_n_counts_accepted :
  forall (ops : list op) (w : World) (name : string) (s : Session),
    conns (self w) !! name = Some s ->
    exists s', conns (self (run ops w)) !! name = Some s' /\
      their_message_n s' = their_message_n s + receives_accepted name ops w.
Proof.
  intros ops. induction ops as [|o ops IH]; intros w name s Hs.
  - exists s. split; [done|]. simpl. lia.
  - destruct (step_accepted o w name s Hs) as (s1 & Hs1 & Hone).
    destruct (IH (step o w) name s1 Hs1) as (s' & Hs' & Hrest).
    exists s'. split; [exact Hs'|].
    cbn [receives_accepted] in *. lia.
Qed.

(** ** Replay *)

(** Over any trace of calls a peer's certificate stays on file and the
    session stays on record with an expected counter that is at least what
    it was. *)
Lemma run_replay_window ops w name s :
  is_Some (certs (self w) !! name) ->
  conns (self w) !! name = Some s ->
  is_Some (certs (self (run ops w)) !! name) /\
  exists s', conns (self (run ops w)) !! name = Some s' /\
             their_message_n s <= their_message_n s'.
Proof.
  revert w s. induction ops as [|o ops IH]; intros w s Hc Hs; simpl.
  - split; [exact Hc|]. exists s. split; [exact Hs|lia].
  - destruct (step_identity o w) as (_ & _ & Hcerts & _).
    destruct (step_their_message_n o w name s Hs) as (s1 & Hs1 & Hle1).
    destruct (IH (step o w) s1 (Hcerts name Hc) Hs1) as (Hc' & s' & Hs' & Hle').
    split; [exact Hc'|]. exists s'. split; [exact Hs'|lia].
Qed.

(** Once [receive_message] has returned a plaintext for a message, the same
    message is never accepted again.  Submitted again at once, it raises the
    replay error and changes nothing.  Submitted again after any further
    calls on the client (sends, receives from this or other peers under any
    key, certificates generated or received), it still raises the replay
    error; that later call may run a DH ratchet before it fails, so nothing
    is said here of the state it leaves. *)
Theorem accepted_message_cannot_be_replayed :
  forall (w w1 : World) (name : string) (message : Header * (bytes * bytes))
         (data : pydata bytes),
    receive_message name message w = (Ok data, w1) ->
    receive_message name message w1 = (Raise replay_error, w1) /\
    (forall ops : list op,
       fst (receive_message name message (run ops w1)) = Raise replay_error) /\
    (forall (ops : list op) (data' : pydata bytes),
       fst (receive_message name message (run ops w1)) <> Ok data').
Proof.
  intros w w1 name message data Hrun.
  destruct (receive_message_cases w name message)
    as [[_ H]|[[_ H]|(cert & s0 & r0 & Hc & Hstart & H)]];
    rewrite H in Hrun; try discriminate.
  unfold commit in Hrun. injection Hrun as Hres Hw1.
  pose proof (receive_session_ok _ _ _ _ Hres)
    as (_ & Hidx & Hnext & _).
  pose proof (receive_session_their_key message s0 r0) as Hkey.
  set (s1 := snd (fst (receive_session message s0 r0))) in *.
  assert (Hs1 : conns (self w1) !! name = Some s1)
    by (subst w1; apply world_with_lookup).
  assert (Hc1 : certs (self w1) !! name = Some cert) by (by subst w1).
  assert (Hlt : h_message_n (fst message) < their_message_n s1) by lia.
  assert (Hlater : forall ops : list op,
            fst (receive_message name message (run ops w1)) = Raise replay_error).
  { intros ops.
    destruct (run_replay_window ops w1 name s1) as ([cert' Hc'] & s' & Hs' & Hle);
      [by rewrite Hc1|exact Hs1|].
    rewrite (receive_message_run (run ops w1) name message cert' s' Hc' Hs').
    unfold commit. cbn [fst]. apply receive_session_below. lia. }
  split; [|split; [exact Hlater|]].
  - rewrite (receive_message_run w1 name message cert s1 Hc1 Hs1).
    assert (Hout : receive_session message s1 (rnd w1) =
                     (Raise replay_error, s1, rnd w1)).
    { unfold receive_session.
      destruct (decide _) as [Hne|_]; [by rewrite Hkey in Hne|].
      destruct (Z.ltb_spec (h_message_n message.1) (their_message_n s1));
        [done|lia]. }
    rewrite Hout. unfold commit. cbn [fst snd].
    by rewrite (world_with_same w1 name s1 Hs1).
  - intros ops data' Hok. rewrite (Hlater ops) in Hok. discriminate.
Qed.

(** ** The first send and the errors of the two calls *)

(** On a client with identity keys, the first [send_message] to a peer whose
    certificate is on file succeeds: it creates the session with a freshly
    generated ratchet pair and sends message number 0 of the first chain
    under that pair's public key. *)
Theorem first_send_succeeds :
  forall (w : World) (name plaintext : string) (cert : Certificate)
         (mk : KeyPair bytes),
    certs (self w) !! name = Some cert ->
    conns (self w) !! name = None ->
    my_keys (self w) = Some mk ->
    exists (header : Header) (ciphertext : bytes * bytes) (w' : World)
           (s' : Session),
      send_message name plaintext w = (Ok (header, ciphertext), w') /\
      conns (self w') !! name = Some s' /\
      h_dh_public_key header = public (fst (generate_eg (rnd w))) /\
      h_message_n header = 0 /\
      h_prev_chain_length header = 0 /\
      h_v_gov header = public mk /\
      my_dh_private_key s' = private (fst (generate_eg (rnd w))) /\
      my_dh_public_key s' = public (fst (generate_eg (rnd w))) /\
      root_key s' = compute_dh (private mk) (public_key cert) /\
      message_n s' = 1 /\
      their_message_n s' = -1 /\
      their_dh_public_key s' = None /\
      receiving_chain_key s' = None /\
      need_ratchet s' = false.
Proof.
  intros w name plaintext cert mk Hc Hs Hk.
  rewrite (send_message_fresh w name plaintext cert mk Hc Hs Hk).
  rewrite (send_message_run (world_with w name _ _) name plaintext cert _ Hc
             (world_with_lookup _ _ _ _)).
  unfold commit. rewrite world_with_world_with. cbn [my_keys self world_with with_conns].
  rewrite Hk. unfold send_session, init_sending. cbn.
  eexists _, _, _, _. split; [reflexivity|].
  split; [apply world_with_lookup|]. repeat split.
Qed.

Lemma send_session_raises mk gov_pk plaintext s r e :
  fst (fst (send_session mk gov_pk plaintext s r)) = Raise e -> e = TypeError.
Proof.
  unfold send_session, dh_ratchet_send.
  destruct (need_ratchet s).
  - destruct (their_dh_public_key s); simpl; [destruct mk; simpl|]; congruence.
  - simpl. destruct (sending_chain_key s); simpl; [destruct mk; simpl|];
      congruence.
Qed.

Lemma receive_session_raises message s r e :
  fst (fst (receive_session message s r)) = Raise e ->
  e = replay_error \/ e = tamper_error \/ e = TypeError.
Proof.
  unfold receive_session.
  destruct (decide _); simpl;
    (destruct (_ <? _)%Z; simpl; [intros [= <-]; by left|]);
    (destruct (_ =? _)%Z; simpl; [|intros [= <-]; right; by left]);
    repeat case_match; simpl; intros [= <-]; eauto.
Qed.

(** The exceptions of the two calls on inputs of the shapes of the data
    model: certificates that carry [username] and [public_key], and headers
    that carry every key with byte strings and integers where [send_message]
    puts them.  On such inputs, and with [lib] functions that raise only as
    [Lib] has it, [send_message] raises the "No certificate found" error or
    [TypeError] and nothing else; [receive_message] raises those, the replay
    error or the tamper error and nothing else.  In particular the lookups
    [self.conns[name]] and [self.certs[name]] made by the two calls and
    their helpers never fail: [KeyError], which in this model only they can
    raise, is not among the outcomes.  A header dict that lacks a key is
    outside the data model and outside this statement: there the subscript
    [header[...]] that meets the missing key raises its own [KeyError]. *)
Theorem messaging_exceptions :
  forall (w : World) (name plaintext : string)
         (message : Header * (bytes * bytes)) (e : exn),
    (fst (send_message name plaintext w) = Raise e ->
       e = no_certificate_error name \/ e = TypeError) /\
    (fst (receive_message name message w) = Raise e ->
       e = no_certificate_error name \/ e = TypeError \/
       e = replay_error \/ e = tamper_error).
Proof.
  intros w name plaintext message e. split.
  - destruct (send_message_cases w name plaintext)
      as [[_ H]|[[_ H]|(cert & s0 & r0 & _ & _ & H)]]; rewrite H;
      unfold commit; cbn [fst].
    + intros [= <-]. by left.
    + intros [= <-]. by right.
    + intros He. right. by apply send_session_raises in He.
  - destruct (receive_message_cases w name message)
      as [[_ H]|[[_ H]|(cert & s0 & r0 & _ & _ & H)]]; rewrite H;
      unfold commit; cbn [fst].
    + intros [= <-]. by left.
    + intros [= <-]. right. by left.
    + intros He. apply receive_session_raises in He as [ -> | [ -> | -> ] ]; eauto.
Qed.

Lemma receive_certificate_run w certificate signature :
  receive_certificate certificate signature w =
    if verify_with_ecdsa (ca_public_key (self w)) (str_certificate certificate)
         signature
    then (Ok tt,
          mkWorld (with_certs (insert (username certificate) certificate) (self w))
                  (rnd w))
    else (Raise certificate_error, w).
Proof.
  unfold receive_certificate, bind, get_self, modify_self, raise. cbn.
  by destruct (verify_with_ecdsa _ _ _).
Qed.

(** A certificate opens the way to a peer only if it verifies: for a peer
    with no certificate on file, after [receive_certificate] of a
    certificate in that peer's name, [send_message] to the peer raises the
    "No certificate found" error exactly when the signature did not
    verify. *)
Theorem certificate_gates_messaging :
  forall (w : World) (certificate : Certificate) (signature : bytes)
         (plaintext : string),
    certs (self w) !! username certificate = None ->
    let w' := snd (receive_certificate certificate signature w) in
    (fst (send_message (username certificate) plaintext w') =
       Raise (no_certificate_error (username certificate)) <->
     verify_with_ecdsa (ca_public_key (self w)) (str_certificate certificate)
       signature = false).
Proof.
  intros w certificate signature plaintext Hnone w'. subst w'.
  rewrite receive_certificate_run.
  destruct (verify_with_ecdsa _ _ _) eqn:Hv; cbn [snd].
  - split; [|discriminate]. intros Hraise. exfalso.
    set (w1 := mkWorld _ _) in *.
    assert (Hc1 : certs (self w1) !! username certificate = Some certificate)
      by (subst w1; cbn; apply lookup_insert_eq).
    destruct (send_message_cases w1 (username certificate) plaintext)
      as [[Hc _]|[[_ H]|(cert & s0 & r0 & _ & _ & H)]].
    + congruence.
    + rewrite H in Hraise. discriminate.
    + rewrite H in Hraise. unfold commit in Hraise. cbn [fst] in Hraise.
      apply send_session_raises in Hraise. discriminate.
  - split; [done|]. intros _.
    by rewrite (send_message_no_certificate w _ plaintext Hnone).
Qed.

End More.


(** * The properties on the symbolic instance *)

Import Toy.

Lemma toy_gcm_correct : gcm_correct.
Proof.
  intros key data iv aad. simpl.
  unfold toy_decrypt_with_gcm, toy_encrypt_with_gcm. simpl.
  rewrite bool_decide_eq_true_2 by reflexivity.
  by destruct data.
Qed.

(** C1 (a defect of the code): Alice and Bob hold each other's verified
    certificate; Alice's first message to Bob has index 0, Bob's lazily
    created session expects index -1, and [receive_message] raises the
    tamper error instead of returning "hello". *)
Theorem first_message_round_trip_fails :
  is_Some (certs (self alice_ready) !! "bob") /\
  is_Some (certs (self bob_ready) !! "alice") /\
  fst (send_message "bob" "hello" alice_ready) = Ok hello /\
  h_message_n (fst hello) = 0 /\
  fst (receive_message "alice" hello bob_ready) = Raise tamper_error /\
  their_message_n <$> conns (self (snd (receive_message "alice" hello bob_ready))) !! "alice"
    = Some (-1).
Proof.
  repeat split; try (vm_compute; eauto; fail).
Qed.

(** C2 is not what the code does.  A message below the expected index under
    a new ratchet key fails with the replay error after the DH ratchet has
    replaced [their_dh_public_key], [root_key] and [receiving_chain_key];
    and a message with the expected index that does not authenticate fails
    with the tamper error after the receiving chain has advanced. *)
Lemma receive_failure_mutates_session :
  let before := conns (self alice_sent3) !! "bob" in
  let after := conns (self (snd (receive_message "bob" stale alice_sent3))) !! "bob" in
  let before' := conns (self alice_replied) !! "bob" in
  let after' := conns (self (snd (receive_message "bob" garbled alice_replied))) !! "bob" in
  fst (receive_message "bob" stale alice_sent3) = Raise replay_error /\
  their_dh_public_key <$> before = Some None /\
  their_dh_public_key <$> after = Some (Some "pk200") /\
  root_key <$> before = Some "dh(0,100)" /\
  root_key <$> after = Some "hkdf1(dh(1,200),salt9,dh_ratchet_receiving)" /\
  receiving_chain_key <$> before = Some None /\
  receiving_chain_key <$> after =
    Some (Some "hkdf2(dh(1,200),salt9,dh_ratchet_receiving)") /\
  fst (receive_message "bob" garbled alice_replied) = Raise tamper_error /\
  receiving_chain_key <$> before' =
    Some (Some "hmac(hkdf2(dh(1,200),salt9,dh_ratchet_receiving),next_chain_key)") /\
  receiving_chain_key <$> after' =
    Some (Some "hmac(hmac(hkdf2(dh(1,200),salt9,dh_ratchet_receiving),next_chain_key),next_chain_key)") /\
  before <> after /\
  before' <> after'.
Proof.
  repeat (split; [vm_compute; reflexivity|]).
  split; intros H; apply (f_equal (fmap receiving_chain_key)) in H;
    vm_compute in H; discriminate.
Qed.

Lemma alice_sent3_wf : client_wf (self alice_sent3).
Proof. unfold alice_sent3, alice_ready. apply run_wf, run_wf, new_client_wf. Qed.

Lemma alice_replied_wf : client_wf (self alice_replied).
Proof. unfold alice_replied. apply step_wf, alice_sent3_wf. Qed.

Lemma alice_replied_session :
  conns (self alice_replied) !! "bob" = Some alice_session_replied.
Proof. vm_compute. reflexivity. Qed.

(** On Alice's session after the reply, resubmitting the reply fails and
    changes nothing; a message under the same ratchet key and with the
    expected index that does not authenticate fails and leaves the receiving
    chain one hash step further, the expected counter as it was. *)
Lemma receive_message_failure_preserves_witness :
  conns (self alice_replied) !! "bob" = Some alice_session_replied /\
  receive_message "bob" reply alice_replied = (Raise replay_error, alice_replied) /\
  (exists s' : Session,
     conns (self alice_replied) !! "bob" = Some s' /\
     their_message_n s' = their_message_n alice_session_replied /\
     need_ratchet s' = need_ratchet alice_session_replied /\
     their_dh_public_key s' = their_dh_public_key alice_session_replied /\
     root_key s' = root_key alice_session_replied) /\
  fst (receive_message "bob" garbled alice_replied) = Raise tamper_error /\
  (exists s' : Session,
     conns (self (snd (receive_message "bob" garbled alice_replied))) !! "bob" =
       Some s' /\
     their_message_n s' = their_message_n alice_session_replied /\
     receiving_chain_key s' =
       Some "hmac(hmac(hkdf2(dh(1,200),salt9,dh_ratchet_receiving),next_chain_key),next_chain_key)").
Proof.
  assert (Hrun : receive_message "bob" reply alice_replied =
                   (Raise replay_error, alice_replied))
    by (vm_compute; reflexivity).
  split; [exact alice_replied_session|]. split; [exact Hrun|].
  split.
  { destruct (receive_message_failure_preserves alice_replied alice_replied "bob"
                reply alice_session_replied replay_error alice_replied_session Hrun)
      as (s' & Hs' & Hthem & Hneed & _ & _ & _ & _ & _ & Hsame & _).
    assert (Hk : Some (h_dh_public_key (fst reply)) =
                   their_dh_public_key alice_session_replied)
      by (vm_compute; reflexivity).
    destruct (Hsame Hk) as (Hkey & Hroot & _).
    exists s'. repeat split; assumption. }
  assert (Hfail : fst (receive_message "bob" garbled alice_replied) =
                    Raise tamper_error)
    by (vm_compute; reflexivity).
  split; [exact Hfail|].
  assert (Hrun' : receive_message "bob" garbled alice_replied =
                    (Raise tamper_error,
                     snd (receive_message "bob" garbled alice_replied)))
    by (rewrite <- Hfail; apply surjective_pairing).
  destruct (receive_message_failure_preserves alice_replied _ "bob"
              garbled alice_session_replied tamper_error alice_replied_session Hrun')
    as (s' & Hs' & Hthem & _ & _ & _ & _ & _ & _ & _ & _ & _ & _ & Hdone).
  assert (Hcert : is_Some (certs (self alice_replied) !! "bob"))
    by (vm_compute; eauto).
  assert (Hk : Some (h_dh_public_key (fst garbled)) =
                 their_dh_public_key alice_session_replied)
    by (vm_compute; reflexivity).
  destruct (Hdone Hcert) as (_ & Hkept).
  destruct (Hkept Hk) as (_ & Hchain).
  exists s'. split; [exact Hs'|]. split; [exact Hthem|].
  rewrite Hchain. vm_compute. reflexivity.
Defined.

(** C3 is not what the code does: Alice has sent three messages and then
    received one; her next send succeeds, performs the DH ratchet and leaves
    [message_n] at 1, below the 3 it was at. *)
Lemma message_n_restarts_on_ratchet :
  let before := conns (self alice_replied) !! "bob" in
  let after :=
    conns (self (snd (send_message "bob" "four" alice_replied))) !! "bob" in
  message_n <$> before = Some 3 /\
  need_ratchet <$> before = Some true /\
  (h_message_n <$> (fst <$> (match fst (send_message "bob" "four" alice_replied) with
                             | Ok sent => Some sent
                             | Raise _ => None
                             end))) = Some 0 /\
  message_n <$> after = Some 1 /\
  ~ (default 0 (message_n <$> before) <= default 0 (message_n <$> after)).
Proof.
  repeat split; try (vm_compute; reflexivity).
  vm_compute. intros H. apply H. reflexivity.
Qed.

Lemma session_counters_over_calls_witness :
  conns (self alice_replied) !! "bob" = Some alice_session_replied /\
  (exists s',
     conns (self (run [SendMessage "bob" "four"; ReceiveMessage "bob" reply]
                    alice_replied)) !! "bob" = Some s' /\
     their_message_n alice_session_replied <= their_message_n s') /\
  (exists s',
     conns (self (step (SendMessage "bob" "four") alice_replied)) !! "bob" = Some s' /\
     message_n s' = 1).
Proof.
  split; [exact alice_replied_session|].
  destruct (session_counters_over_calls
              [SendMessage "bob" "four"; ReceiveMessage "bob" reply]
              (SendMessage "bob" "four") alice_replied "bob"
              alice_session_replied alice_replied_session)
    as [Htrace (s' & Hs' & _ & [Hle|(plaintext & Hop & _ & _ & Hone)])].
  - split; [exact Htrace|]. exfalso. revert Hs' Hle. vm_compute.
    intros Hs' Hle. injection Hs' as <-. apply Hle. reflexivity.
  - split; [exact Htrace|]. exists s'. split; [exact Hs'|].
    injection Hop as <-.
    destruct (fst (send_message "bob" "four" alice_replied)) as [sent|e] eqn:E.
    + exact (Hone sent eq_refl).
    + exfalso. revert E. vm_compute. discriminate.
Defined.

(** On Alice's session after the reply, the reply itself is now below the
    expected index. *)
Lemma receive_message_counter_checks_witness :
  certs (self alice_replied) !! "bob" = Some bob_cert /\
  conns (self alice_replied) !! "bob" = Some alice_session_replied /\
  h_message_n (fst reply) < their_message_n alice_session_replied /\
  fst (receive_message "bob" (fst reply, snd reply) alice_replied) =
    Raise replay_error.
Proof.
  assert (Hc : certs (self alice_replied) !! "bob" = Some bob_cert)
    by (vm_compute; reflexivity).
  assert (Hlt : h_message_n (fst reply) < their_message_n alice_session_replied)
    by (vm_compute; reflexivity).
  split; [exact Hc|]. split; [exact alice_replied_session|]. split; [exact Hlt|].
  destruct (receive_message_counter_checks alice_replied "bob" (fst reply)
              (snd reply) bob_cert alice_session_replied Hc alice_replied_session)
    as [[_ Hreplay] _].
  exact (Hreplay Hlt).
Defined.


(** The escrow ciphertext of Alice's first message decrypts, under the
    escrow key, to the AES key of that message. *)
Lemma send_message_escrow_witness :
  send_message "bob" "hello" alice_ready =
    (Ok (fst hello, snd hello), snd (send_message "bob" "hello" alice_ready)) /\
  gcm_correct /\
  exists (keys : KeyPair string) (current_key : string),
    my_keys (self alice_ready) = Some keys /\
    decrypt_with_gcm
      (hmac_to_aes_key (compute_dh (private keys) (gov_public_key (self alice_ready)))
         gov_encryption_data_str)
      (h_c_gov (fst hello)) (h_iv_gov (fst hello)) None =
    Some (PyBytes (hmac_to_aes_key (fst (_ratchet_sending_chain current_key))
                     "encrypt")) /\
    snd hello =
      encrypt_with_gcm
        (hmac_to_aes_key (fst (_ratchet_sending_chain current_key)) "encrypt")
        (PyStr "hello") (h_receiver_iv (fst hello)) (Some (str_header (fst hello))).
Proof.
  assert (Hrun : send_message "bob" "hello" alice_ready =
            (Ok (fst hello, snd hello), snd (send_message "bob" "hello" alice_ready)))
    by (vm_compute; reflexivity).
  split; [exact Hrun|]. split; [exact toy_gcm_correct|].
  destruct (send_message_escrow alice_ready _ "bob" "hello" (fst hello) (snd hello)
              Hrun)
    as (keys & ck & s' & Hk & Hct & _ & _ & _ & _ & _ & Hdec).
  exists keys, ck. split; [exact Hk|]. split; [exact (Hdec toy_gcm_correct)|exact Hct].
Defined.

(** The DH ratchet on Alice's session after the reply. *)
Lemma ratchet_dh_sending_keys_spec_witness :
  client_wf (self alice_replied) /\
  conns (self alice_replied) !! "bob" = Some alice_session_replied /\
  need_ratchet alice_session_replied = true /\
  exists (w' : World) (s' : Session),
    _ratchet_dh_sending_keys "bob" alice_replied = (Ok tt, w') /\
    conns (self w') !! "bob" = Some s' /\
    prev_chain_length s' = 3 /\
    message_n s' = 0 /\
    my_dh_public_key s' = "pk10" /\
    need_ratchet s' = false.
Proof.
  split; [exact alice_replied_wf|]. split; [exact alice_replied_session|].
  split; [reflexivity|].
  destruct (ratchet_dh_sending_keys_spec alice_replied "bob" alice_session_replied
              alice_replied_wf alice_replied_session eq_refl)
    as (w' & s' & pk & Hrun & Hs' & _ & Hprev & Hn & _ & Hpub & _ & Hneed & _).
  exists w', s'. repeat split; assumption.
Defined.

(** C9 is not what the code does: the session Bob creates on receiving
    Alice's first message has Bob's identity pair as its ratchet pair; no
    key pair is generated (the entropy advances by the one salt only), where
    a fresh pair would have been "sk101", "pk101". *)
Lemma receiving_session_reuses_identity_keys :
  let w' := snd (_initialize_receiving_session "alice" (fst hello) bob_ready) in
  my_keys (self bob_ready) = Some bob_keys /\
  my_dh_private_key <$> conns (self w') !! "alice" = Some (private bob_keys) /\
  my_dh_public_key <$> conns (self w') !! "alice" = Some (public bob_keys) /\
  fst (generate_eg (rnd bob_ready)) = mkKeyPair "sk101" "pk101" /\
  rnd w' = snd (gen_random_salt (rnd bob_ready)).
Proof.
  repeat split; vm_compute; reflexivity.
Qed.

Lemma initialize_receiving_session_spec_witness :
  certs (self bob_ready) !! "alice" = Some alice_cert /\
  my_keys (self bob_ready) = Some bob_keys /\
  exists (w' : World) (s : Session),
    _initialize_receiving_session "alice" (fst hello) bob_ready = (Ok tt, w') /\
    conns (self w') !! "alice" = Some s /\
    my_dh_private_key s = "sk100" /\
    my_dh_public_key s = "pk100" /\
    their_dh_public_key s = Some "pk1" /\
    their_message_n s = -1 /\
    receiving_chain_key s = Some "hkdf2(dh(0,100),salt101,receiving_chain_init)".
Proof.
  assert (Hc : certs (self bob_ready) !! "alice" = Some alice_cert)
    by (vm_compute; reflexivity).
  assert (Hk : my_keys (self bob_ready) = Some bob_keys)
    by (vm_compute; reflexivity).
  split; [exact Hc|]. split; [exact Hk|].
  destruct (initialize_receiving_session_spec bob_ready "alice" (fst hello)
              alice_cert bob_keys Hc Hk)
    as (w' & s & Hrun & Hs & Hpriv & Hpub & Hthem & _ & _ & Hchain & _ & Hn & _).
  exists w', s. repeat split; assumption.
Defined.


(** ** The further properties on the symbolic instance *)

Lemma alice_sent3_session :
  conns (self alice_sent3) !! "bob" = Some alice_session3.
Proof. vm_compute. reflexivity. Qed.

Lemma alice_sent3_cert : certs (self alice_sent3) !! "bob" = Some bob_cert.
Proof. vm_compute. reflexivity. Qed.

Lemma alice_replied_cert : certs (self alice_replied) !! "bob" = Some bob_cert.
Proof. vm_compute. reflexivity. Qed.

Lemma alice_ready_cert : certs (self alice_ready) !! "bob" = Some bob_cert.
Proof. vm_compute. reflexivity. Qed.

Lemma alice_ready_keys : my_keys (self alice_ready) = Some alice_keys.
Proof. vm_compute. reflexivity. Qed.

Lemma alice_ready_no_session : conns (self alice_ready) !! "bob" = None.
Proof. vm_compute. reflexivity. Qed.

Lemma hello_sent :
  send_message "bob" "hello" alice_ready =
    (Ok (fst hello, snd hello), snd (send_message "bob" "hello" alice_ready)).
Proof.
  rewrite (surjective_pairing (send_message "bob" "hello" alice_ready)) at 1.
  f_equal; vm_compute; reflexivity.
Qed.

Lemma reply_received :
  receive_message "bob" reply alice_sent3 = (Ok (PyStr "hi"), alice_replied).
Proof.
  unfold alice_replied, step.
  rewrite (surjective_pairing (receive_message "bob" reply alice_sent3)) at 1.
  f_equal; vm_compute; reflexivity.
Qed.

(** Before any certificate is received, Alice can neither send to Bob nor
    receive from him. *)
Lemma missing_certificate_rejected_witness :
  certs (self alice_start) !! "bob" = None /\
  send_message "bob" "hello" alice_start =
    (Raise (no_certificate_error "bob"), alice_start) /\
  receive_message "bob" hello alice_start =
    (Raise (no_certificate_error "bob"), alice_start).
Proof.
  assert (Hc : certs (self alice_start) !! "bob" = None)
    by (vm_compute; reflexivity).
  split; [exact Hc|].
  exact (missing_certificate_rejected alice_start "bob" "hello" hello Hc).
Defined.

Lemma session_creation_needs_identity_keys_witness :
  certs (self alice_no_keys) !! "bob" = Some bob_cert /\
  conns (self alice_no_keys) !! "bob" = None /\
  my_keys (self alice_no_keys) = None /\
  fst (send_message "bob" "hello" alice_no_keys) = Raise TypeError /\
  receive_message "bob" hello alice_no_keys = (Raise TypeError, alice_no_keys).
Proof.
  assert (Hc : certs (self alice_no_keys) !! "bob" = Some bob_cert)
    by (vm_compute; reflexivity).
  assert (Hs : conns (self alice_no_keys) !! "bob" = None)
    by (vm_compute; reflexivity).
  assert (Hk : my_keys (self alice_no_keys) = None) by (vm_compute; reflexivity).
  split; [exact Hc|]. split; [exact Hs|]. split; [exact Hk|].
  destruct (session_creation_needs_identity_keys alice_no_keys "bob" "hello"
              hello bob_cert Hc Hs Hk) as (Hsend & Hrecv & _).
  split; [by rewrite Hsend|exact Hrecv].
Defined.

Lemma initialize_sending_session_spec_witness :
  certs (self alice_ready) !! "bob" = Some bob_cert /\
  my_keys (self alice_ready) = Some alice_keys /\
  exists (w' : World) (s : Session),
    _initialize_sending_session "bob" alice_ready = (Ok tt, w') /\
    conns (self w') !! "bob" = Some s /\
    my_dh_public_key s = "pk1" /\
    root_key s = "dh(0,100)" /\
    sending_chain_key s = Some "hkdf1(dh(0,100),salt2,sending_chain_init)" /\
    receiving_chain_key s = None /\
    their_message_n s = -1.
Proof.
  split; [exact alice_ready_cert|]. split; [exact alice_ready_keys|].
  destruct (initialize_sending_session_spec alice_ready "bob" bob_cert alice_keys
              alice_ready_cert alice_ready_keys)
    as (w' & s & Hrun & Hs & _ & Hpub & _ & Hroot & Hck & Hrk & _ & Hthem & _).
  exists w', s. repeat split; assumption.
Defined.

Lemma ratchet_dh_receiving_keys_spec_witness :
  conns (self alice_replied) !! "bob" = Some alice_session_replied /\
  exists (w' : World) (s' : Session),
    _ratchet_dh_receiving_keys "bob" (fst stale) alice_replied = (Ok tt, w') /\
    conns (self w') !! "bob" = Some s' /\
    their_dh_public_key s' = Some "pk200" /\
    root_key s' = "hkdf1(dh(1,200),salt10,dh_ratchet_receiving)" /\
    receiving_chain_key s' = Some "hkdf2(dh(1,200),salt10,dh_ratchet_receiving)" /\
    message_n s' = 3 /\
    their_message_n s' = 0 /\
    need_ratchet s' = true.
Proof.
  split; [exact alice_replied_session|].
  destruct (ratchet_dh_receiving_keys_spec alice_replied "bob" (fst stale)
              alice_session_replied alice_replied_session)
    as (w' & s' & Hrun & Hs' & Hkey & Hroot & Hck & _ & _ & _ & Hn & Hthem & _
        & Hneed & _).
  exists w', s'. repeat split; assumption.
Defined.

Lemma reachable_session_invariant_witness :
  conns (self (run alice_trace
                 (mkWorld (new_client (public ca_keys) (public gov_keys)) 0%nat)))
    !! "bob" = Some alice_session_replied /\
  0 <= message_n alice_session_replied /\
  -1 <= their_message_n alice_session_replied /\
  (is_Some (their_dh_public_key alice_session_replied) <->
   is_Some (receiving_chain_key alice_session_replied)).
Proof.
  assert (Hs : conns (self (run alice_trace
                 (mkWorld (new_client (public ca_keys) (public gov_keys)) 0%nat)))
                 !! "bob" = Some alice_session_replied)
    by (vm_compute; reflexivity).
  split; [exact Hs|].
  destruct (reachable_session_invariant alice_trace (public ca_keys)
              (public gov_keys) 0%nat "bob" alice_session_replied Hs)
    as (_ & _ & Hn & _ & Ht & _ & Hiff).
  repeat split; try assumption; apply Hiff.
Defined.

Lemma messaging_frame_witness :
  "carol" <> "bob" /\
  conns (self (snd (send_message "bob" "four" alice_replied))) !! "carol" =
    conns (self alice_replied) !! "carol" /\
  certs (self (snd (receive_message "bob" stale alice_replied))) =
    certs (self alice_replied).
Proof.
  assert (Hne : "carol" <> "bob") by discriminate.
  split; [exact Hne|].
  destruct (messaging_frame alice_replied "bob" "carol" "four" stale Hne)
    as (Hsent & _ & _ & Hcerts & _).
  split; assumption.
Defined.

(** Alice has accepted Bob's reply.  Resubmitted at once it is refused
    without effect; resubmitted after she has sent a fourth message and
    refused a message under another ratchet key, it is refused again. *)
Lemma accepted_message_cannot_be_replayed_witness :
  receive_message "bob" reply alice_sent3 = (Ok (PyStr "hi"), alice_replied) /\
  receive_message "bob" reply alice_replied = (Raise replay_error, alice_replied) /\
  fst (receive_message "bob" reply
         (run [SendMessage "bob" "four"; ReceiveMessage "bob" garbled]
              alice_replied)) = Raise replay_error.
Proof.
  split; [exact reply_received|].
  destruct (accepted_message_cannot_be_replayed alice_sent3 alice_replied "bob"
              reply (PyStr "hi") reply_received) as (Hnow & Hlater & _).
  split; [exact Hnow|].
  exact (Hlater [SendMessage "bob" "four"; ReceiveMessage "bob" garbled]).
Defined.

Lemma consecutive_sends_share_chain_witness :
  send_message "bob" "hello" alice_ready =
    (Ok (fst hello, snd hello), snd (send_message "bob" "hello" alice_ready)) /\
  exists (header2 : Header) (ciphertext2 : string * string) (w2 : World),
    send_message "bob" "again" (snd (send_message "bob" "hello" alice_ready)) =
      (Ok (header2, ciphertext2), w2) /\
    h_dh_public_key header2 = h_dh_public_key (fst hello) /\
    h_message_n header2 = h_message_n (fst hello) + 1.
Proof.
  split; [exact hello_sent|].
  destruct (consecutive_sends_share_chain alice_ready _ "bob" "hello" "again"
              (fst hello) (snd hello) hello_sent)
    as (header2 & ciphertext2 & w2 & s1 & ck & Hrun & _ & _ & Hdh & _ & _ & Hn & _).
  exists header2, ciphertext2, w2. repeat split; assumption.
Defined.

Lemma receive_message_accepts_witness :
  certs (self alice_sent3) !! "bob" = Some bob_cert /\
  conns (self alice_sent3) !! "bob" = Some alice_session3 /\
  fst (receive_message "bob" (fst reply, snd reply) alice_sent3) = Ok (PyStr "hi") /\
  h_message_n (fst reply) = their_message_n alice_session3 /\
  exists key : string,
    receiving_aes_key (fst reply) alice_session3 (rnd alice_sent3) = Some key /\
    decrypt_with_gcm key (snd reply) (h_receiver_iv (fst reply))
      (Some (str_header (fst reply))) = Some (PyStr "hi").
Proof.
  assert (Hok : fst (receive_message "bob" (fst reply, snd reply) alice_sent3) =
                  Ok (PyStr "hi")) by (vm_compute; reflexivity).
  split; [exact alice_sent3_cert|]. split; [exact alice_sent3_session|].
  split; [exact Hok|].
  exact (proj1 (receive_message_accepts alice_sent3 "bob" (fst reply) (snd reply)
                  bob_cert alice_session3 (PyStr "hi") alice_sent3_cert
                  alice_sent3_session) Hok).
Defined.

Lemma unauthenticated_message_advances_chain_witness :
  certs (self alice_replied) !! "bob" = Some bob_cert /\
  conns (self alice_replied) !! "bob" = Some alice_session_replied /\
  receive_message "bob" (fst garbled, snd garbled) alice_replied =
    (Raise tamper_error,
     world_with alice_replied "bob"
       (set_receiving_chain_key
          (Some (snd (_ratchet_receiving_chain
                        "hmac(hkdf2(dh(1,200),salt9,dh_ratchet_receiving),next_chain_key)")))
          alice_session_replied)
       (rnd alice_replied)).
Proof.
  split; [exact alice_replied_cert|]. split; [exact alice_replied_session|].
  apply (unauthenticated_message_advances_chain alice_replied "bob" (fst garbled)
           (snd garbled) bob_cert alice_session_replied
           "hmac(hkdf2(dh(1,200),salt9,dh_ratchet_receiving),next_chain_key)"
           alice_replied_cert alice_replied_session);
    vm_compute; reflexivity.
Defined.

Lemma send_stays_available_witness :
  client_wf (self alice_sent3) /\
  conns (self alice_sent3) !! "bob" = Some alice_session3 /\
  is_Some (sending_chain_key alice_session3) /\
  exists (header : Header) (ciphertext : string * string),
    fst (send_message "bob" "four"
           (run [ReceiveMessage "bob" stale; ReceiveMessage "bob" reply;
                 SendMessage "bob" "again"] alice_sent3)) =
      Ok (header, ciphertext).
Proof.
  assert (Hck : is_Some (sending_chain_key alice_session3)) by (simpl; eauto).
  split; [exact alice_sent3_wf|]. split; [exact alice_sent3_session|].
  split; [exact Hck|].
  exact (send_stays_available
           [ReceiveMessage "bob" stale; ReceiveMessage "bob" reply;
            SendMessage "bob" "again"]
           alice_sent3 "bob" "four" alice_session3 alice_sent3_wf
           alice_sent3_session Hck).
Defined.

Lemma receiving_side_session_cannot_send_witness :
  certs (self bob_ready) !! "alice" = Some alice_cert /\
  conns (self bob_ready) !! "alice" = None /\
  my_keys (self bob_ready) = Some bob_keys /\
  fst (receive_message "alice" hello bob_ready) = Raise tamper_error /\
  fst (send_message "alice" "hi" (snd (receive_message "alice" hello bob_ready))) =
    Raise TypeError.
Proof.
  assert (Hc : certs (self bob_ready) !! "alice" = Some alice_cert)
    by (vm_compute; reflexivity).
  assert (Hs : conns (self bob_ready) !! "alice" = None)
    by (vm_compute; reflexivity).
  assert (Hk : my_keys (self bob_ready) = Some bob_keys)
    by (vm_compute; reflexivity).
  assert (Hrun : receive_message "alice" hello bob_ready =
            (Raise tamper_error, snd (receive_message "alice" hello bob_ready))).
  { rewrite (surjective_pairing (receive_message "alice" hello bob_ready)) at 1.
    f_equal; vm_compute; reflexivity. }
  split; [exact Hc|]. split; [exact Hs|]. split; [exact Hk|].
  split; [by rewrite Hrun|].
  exact (proj2 (receiving_side_session_cannot_send bob_ready _ "alice" "hi" hello
                  alice_cert bob_keys tamper_error Hc Hs Hk Hrun)).
Defined.

Lemma session_keys_change_only_by_ratchet_witness :
  conns (self alice_replied) !! "bob" = Some alice_session_replied /\
  exists s' : Session,
    conns (self (step (SendMessage "bob" "four") alice_replied)) !! "bob" = Some s' /\
    their_dh_public_key s' = their_dh_public_key alice_session_replied.
Proof.
  split; [exact alice_replied_session|].
  destruct (session_keys_change_only_by_ratchet (SendMessage "bob" "four")
              alice_replied "bob" alice_session_replied alice_replied_session)
    as (s' & Hs' & _ & _ & [Hthem|(message & Hop & _)]);
    [|discriminate Hop].
  exists s'. split; assumption.
Defined.

Lemma receive_records_header_key_witness :
  certs (self alice_sent3) !! "bob" = Some bob_cert /\
  conns (self alice_sent3) !! "bob" = Some alice_session3 /\
  their_dh_public_key alice_session3 = None /\
  fst (receive_message "bob" stale alice_sent3) = Raise replay_error /\
  exists s' : Session,
    conns (self (snd (receive_message "bob" stale alice_sent3))) !! "bob" = Some s' /\
    their_dh_public_key s' = Some "pk200".
Proof.
  split; [exact alice_sent3_cert|]. split; [exact alice_sent3_session|].
  split; [reflexivity|]. split; [vm_compute; reflexivity|].
  exact (receive_records_header_key alice_sent3 "bob" stale bob_cert
           alice_session3 alice_sent3_cert alice_sent3_session).
Defined.

Lemma header_carries_certified_key_witness :
  send_message "bob" "hello"
    (run [GenerateCertificate "alice"; ReceiveCertificate bob_cert (signed bob_cert)]
       (mkWorld (new_client (public ca_keys) (public gov_keys)) 0%nat)) =
    (Ok (fst hello, snd hello), snd (send_message "bob" "hello" alice_ready)) /\
  exists certificate : Certificate,
    my_certificate (self alice_ready) = Some certificate /\
    h_v_gov (fst hello) = public_key certificate.
Proof.
  split; [exact hello_sent|].
  destruct (header_carries_certified_key
              [GenerateCertificate "alice"; ReceiveCertificate bob_cert (signed bob_cert)]
              (public ca_keys) (public gov_keys) 0%nat _ "bob" "hello" (fst hello)
              (snd hello) hello_sent)
    as (certificate & Hm & _ & Hv).
  exists certificate. split; assumption.
Defined.

Lemma their_message_n_counts_accepted_witness :
  conns (self alice_sent3) !! "bob" = Some alice_session3 /\
  receives_accepted "bob"
    [ReceiveMessage "bob" stale; ReceiveMessage "bob" reply;
     ReceiveMessage "bob" reply; SendMessage "bob" "four"] alice_sent3 = 1 /\
  exists s' : Session,
    conns (self (run [ReceiveMessage "bob" stale; ReceiveMessage "bob" reply;
                      ReceiveMessage "bob" reply; SendMessage "bob" "four"]
                   alice_sent3)) !! "bob" = Some s' /\
    their_message_n s' = 0.
Proof.
  assert (Hcount : receives_accepted "bob"
            [ReceiveMessage "bob" stale; ReceiveMessage "bob" reply;
             ReceiveMessage "bob" reply; SendMessage "bob" "four"] alice_sent3 = 1)
    by (vm_compute; reflexivity).
  split; [exact alice_sent3_session|]. split; [exact Hcount|].
  destruct (their_message_n_counts_accepted
              [ReceiveMessage "bob" stale; ReceiveMessage "bob" reply;
               ReceiveMessage "bob" reply; SendMessage "bob" "four"]
              alice_sent3 "bob" alice_session3 alice_sent3_session)
    as (s' & Hs' & Hn).
  exists s'. split; [exact Hs'|]. rewrite Hn, Hcount. reflexivity.
Defined.

Lemma first_send_succeeds_witness :
  certs (self alice_ready) !! "bob" = Some bob_cert /\
  conns (self alice_ready) !! "bob" = None /\
  my_keys (self alice_ready) = Some alice_keys /\
  exists (header : Header) (ciphertext : string * string) (w' : World),
    send_message "bob" "hello" alice_ready = (Ok (header, ciphertext), w') /\
    h_dh_public_key header = "pk1" /\
    h_message_n header = 0 /\
    h_v_gov header = "pk0".
Proof.
  split; [exact alice_ready_cert|]. split; [exact alice_ready_no_session|].
  split; [exact alice_ready_keys|].
  destruct (first_send_succeeds alice_ready "bob" "hello" bob_cert alice_keys
              alice_ready_cert alice_ready_no_session alice_ready_keys)
    as (header & ciphertext & w' & s' & Hrun & _ & Hdh & Hn & _ & Hv & _).
  exists header, ciphertext, w'. repeat split; assumption.
Defined.

Lemma certificate_gates_messaging_witness :
  certs (self alice_start) !! username bob_cert = None /\
  verify_with_ecdsa (ca_public_key (self alice_start)) (str_certificate bob_cert)
    "forged" = false /\
  fst (send_message "bob" "hello"
         (snd (receive_certificate bob_cert "forged" alice_start))) =
    Raise (no_certificate_error "bob").
Proof.
  assert (Hc : certs (self alice_start) !! username bob_cert = None)
    by (vm_compute; reflexivity).
  assert (Hv : verify_with_ecdsa (ca_public_key (self alice_start))
                 (str_certificate bob_cert) "forged" = false)
    by (vm_compute; reflexivity).
  split; [exact Hc|]. split; [exact Hv|].
  exact (proj2 (certificate_gates_messaging alice_start bob_cert "forged" "hello"
                  Hc) Hv).
Defined.
